(** * Actuator bench script (main.py): model and verified properties

    The script drives a linear actuator through an H-bridge with two PWM
    lines (RPWM extends, LPWM retracts) and blinks an LED.  It has five
    entry points: [test_led], [test_pwm], [run_one_cycle], [extend_only]
    and [retract_only].  Each one acquires its pins, runs a timed sequence
    inside [try: ... except KeyboardInterrupt: ... finally: ...] and shuts
    the outputs down.

    The embedding is shallow.  Python integers are [Z]; Python numbers
    that measure time are rationals ([Q]); every call into [machine] or
    [time] and every [print] is one primitive step of a small monad [M]
    that threads a [world]: the wall clock, the pending interrupt and the
    trace of observable events.  The hardware is not part of the script:
    its duty registers are recovered by replaying the trace. *)

From Stdlib Require Import ZArith QArith Qround Qminmax Lia Lqa List Bool.
From Stdlib Require Floats.PrimFloat Floats.FloatOps Floats.SpecFloat.
From Stdlib Require Uint63.
Import ListNotations.

Local Open Scope Z_scope.

(* ================================================================= *)
(** ** Python numerics used by the script *)

Module Py.

(** [a / b] on two Python ints is true division.  The quotient is kept
    exact here; [Binary64] below replays the same expression on IEEE
    doubles for the documented speed range. *)
Definition truediv (a b : Z) : Q := (inject_Z a / inject_Z b)%Q.

(** [int(x)] truncates toward zero. *)
Definition int (x : Q) : Z := Z.quot (Qnum x) (Zpos (Qden x)).

(** [round(x)]: nearest integer, ties to the even neighbour. *)
Definition round (x : Q) : Z :=
  let f := Qfloor x in
  match Qcompare (x - inject_Z f) (1 # 2) with
  | Lt => f
  | Gt => f + 1
  | Eq => if Z.even f then f else f + 1
  end.

(** [range(start, stop, step)] for a non-zero step. *)
Definition range (start stop step : Z) : list Z :=
  let n := if 0 <? step then (stop - start + step - 1) / step
           else if step <? 0 then (start - stop - step - 1) / (- step)
           else 0 in
  map (fun i => start + Z.of_nat i * step) (seq 0 (Z.to_nat n)).

(** [x < y] and [x >= y] on times. *)
Definition lt (x y : Q) : bool := negb (Qle_bool y x).
Definition ge (x y : Q) : bool := Qle_bool y x.

End Py.

(* ================================================================= *)
(** ** Speed percentage to 16-bit duty cycle *)

(** [int(speed * 65535 / 100)], the expression shared by
    [run_one_cycle], [extend_only] and [retract_only]. *)
Definition duty_cycle (speed : Z) : Z :=
  Py.int (Py.truediv (speed * 65535) 100).

(** What the specification writes for the same quantity:
    [round(speed_percent * 65535 / 100)]. *)
Definition spec_duty_cycle (speed : Z) : Z :=
  Py.round (Py.truediv (speed * 65535) 100).

(** The same expression on IEEE binary64, as CPython evaluates it when
    both operands of [/] are exactly representable. *)
Module Binary64.

Definition of_int (z : Z) : PrimFloat.float :=
  if z <? 0
  then PrimFloat.opp (PrimFloat.of_uint63 (Uint63.of_Z (- z)))
  else PrimFloat.of_uint63 (Uint63.of_Z z).

Definition to_int (f : PrimFloat.float) : option Z :=
  match FloatOps.Prim2SF f with
  | SpecFloat.S754_zero _ => Some 0
  | SpecFloat.S754_finite s m e =>
      let mag := if 0 <=? e then Z.shiftl (Zpos m) e
                 else Z.shiftr (Zpos m) (- e) in
      Some (if s then - mag else mag)
  | _ => None
  end.

Definition duty_cycle (speed : Z) : option Z :=
  to_int (PrimFloat.div (of_int (speed * 65535)) (of_int 100)).

End Binary64.

Definition binary64_agrees (speed : Z) : bool :=
  match Binary64.duty_cycle speed with
  | Some d => d =? duty_cycle speed
  | None => false
  end.

(* ================================================================= *)
(** ** Observable events *)

(** Console output.  Each constructor is one [print] of the script; the
    interpolated values are kept as arguments. *)
Inductive message : Type :=
| MsgLedStart (pin_number : Z) (duration : Q)
    (* "Starting LED test on GPIO {pin_number} for {duration} seconds" *)
| MsgPwmStart (duration : Q)   (* "Starting PWM Test for {duration} seconds..." *)
| MsgTestStopped               (* "Test stopped" *)
| MsgSpeedingUp                (* "Speeding up..." *)
| MsgFullSpeed                 (* "Full Speed!" *)
| MsgSlowingDown               (* "Slowing down..." *)
| MsgCycleStart (r_pwm_pin l_pwm_pin : Z)
    (* "--- STARTING SINGLE CYCLE (GPIO {r_pwm_pin}/{l_pwm_pin}) ---" *)
| MsgExtending (duration : Q)  (* "Extending for {duration} seconds..." *)
| MsgPausing                   (* "Pausing..." *)
| MsgRetracting (duration : Q) (* "Retracting for {duration} seconds..." *)
| MsgCycleInterrupted          (* "! CYCLE INTERRUPTED BY USER !" *)
| MsgCycleComplete             (* "--- CYCLE COMPLETE: MOTORS OFF ---" *)
| MsgExtendOnly (duration : Q) (speed : Z)
    (* "--> Extending for {duration}s at {speed}%..." *)
| MsgRetractOnly (duration : Q) (speed : Z)
    (* "<-- Retracting for {duration}s at {speed}%..." *)
| MsgInterrupted               (* "Interrupted!" *)
| MsgExtendStopped             (* "--> Stopped." *)
| MsgRetractStopped.           (* "<-- Stopped." *)

(** A [machine.PWM] object: its identity and the pin it drives.  Two
    objects on the same pin share the pin's duty register. *)
Record PWM : Type := { pwm_id : nat; pwm_pin : Z }.

Definition same_pwm (a b : PWM) : bool := Nat.eqb (pwm_id a) (pwm_id b).

Inductive event : Type :=
| EvPrint (m : message)
| EvPinOut (pin : Z)               (* Pin(pin, Pin.OUT) *)
| EvValue (pin : Z) (level : Z)    (* led.value(level) *)
| EvPwmInit (h : PWM) (freq : Z)   (* PWM(Pin(pin), freq=freq) *)
| EvDutyU16 (h : PWM) (duty : Z)   (* h.duty_u16(duty) *)
| EvDeinit (h : PWM)               (* h.deinit() *)
| EvTime (t : Q)                   (* time.time() returned t *)
| EvSleep (d : Q)                  (* time.sleep(d) ran to its end *)
| EvKeyboardInterrupt.             (* the interrupt was raised here *)

(* ================================================================= *)
(** ** The execution monad *)

Inductive exn : Type := KeyboardInterrupt.

(** [OutOfFuel] is not a Python outcome: it marks a [while] loop of the
    model that was given too few iterations. *)
Inductive result (A : Type) : Type :=
| Ok (a : A)
| Raise (e : exn)
| OutOfFuel.
Arguments Ok {A} a.
Arguments Raise {A} e.
Arguments OutOfFuel {A}.

(** [pending = Some k]: the user's interrupt arrives while the (k+1)-th
    primitive step from now is in progress; that step does not complete
    and raises [KeyboardInterrupt] instead.  [None]: no interrupt (or it
    has been delivered already).  Only waits let time pass. *)
Record world : Type := {
  now : Q;
  pending : option nat;
  next_id : nat;
  trace : list event
}.

Definition M (A : Type) : Type := world -> result A * world.

Definition ret {A} (a : A) : M A := fun w => (Ok a, w).

Definition bind {A B} (m : M A) (k : A -> M B) : M B := fun w =>
  match m w with
  | (Ok a, w') => k a w'
  | (Raise e, w') => (Raise e, w')
  | (OutOfFuel, w') => (OutOfFuel, w')
  end.

Declare Scope py_scope.
Delimit Scope py_scope with py.
Notation "x <- m ;; k" := (bind m (fun x => k))
  (at level 61, m at next level, right associativity) : py_scope.
Notation "m ;; k" := (bind m (fun _ => k))
  (at level 61, right associativity) : py_scope.
Local Open Scope py_scope.

Definition emit (e : event) (w : world) : world :=
  {| now := now w; pending := pending w; next_id := next_id w;
     trace := trace w ++ [e] |}.

Definition advance (d : Q) (w : world) : world :=
  {| now := (now w + d)%Q; pending := pending w; next_id := next_id w;
     trace := trace w |}.

Definition with_pending (p : option nat) (w : world) : world :=
  {| now := now w; pending := p; next_id := next_id w; trace := trace w |}.

Definition fresh_id (w : world) : world :=
  {| now := now w; pending := pending w; next_id := S (next_id w);
     trace := trace w |}.

(** One primitive step: interrupted if the interrupt is due, performed
    otherwise. *)
Definition prim {A} (act : world -> A * world) : M A := fun w =>
  match pending w with
  | Some O => (Raise KeyboardInterrupt,
               emit EvKeyboardInterrupt (with_pending None w))
  | Some (S k) => let (a, w') := act (with_pending (Some k) w) in (Ok a, w')
  | None => let (a, w') := act w in (Ok a, w')
  end.

Inductive loop_ctl : Type := Continue | Break.

(** [for x in xs: body], where the body may [break]. *)
Fixpoint for_ {A} (xs : list A) (body : A -> M loop_ctl) : M unit :=
  match xs with
  | [] => ret tt
  | x :: xs' =>
      c <- body x ;;
      match c with
      | Break => ret tt
      | Continue => for_ xs' body
      end
  end.

(** [while cond: body], where the body may [break]; [fuel] bounds the
    number of times the condition is evaluated. *)
Fixpoint while_ (fuel : nat) (cond : M bool) (body : M loop_ctl) : M unit :=
  match fuel with
  | O => fun w => (OutOfFuel, w)
  | S fuel' =>
      b <- cond ;;
      if b then
        c <- body ;;
        match c with
        | Break => ret tt
        | Continue => while_ fuel' cond body
        end
      else ret tt
  end.

(** [try: body / except KeyboardInterrupt: handler / finally: final].
    The [finally] suite runs after a normal end, after a handled
    interrupt and after a handler that raised; an exception raised by
    the [finally] suite itself replaces the outcome. *)
Definition try_except_finally (body handler final : M unit) : M unit :=
  fun w =>
    match body w with
    | (Ok _, w1) => final w1
    | (Raise KeyboardInterrupt, w1) =>
        match handler w1 with
        | (Ok _, w2) => final w2
        | (Raise e, w2) =>
            match final w2 with
            | (Ok _, w3) => (Raise e, w3)
            | other => other
            end
        | (OutOfFuel, w2) => (OutOfFuel, w2)
        end
    | (OutOfFuel, w1) => (OutOfFuel, w1)
    end.

(* ----------------------------------------------------------------- *)
(** *** Primitive steps: [print], [time], [machine] *)

Definition print (m : message) : M unit :=
  prim (fun w => (tt, emit (EvPrint m) w)).

Definition time_time : M Q :=
  prim (fun w => (now w, emit (EvTime (now w)) w)).

Definition time_sleep (d : Q) : M unit :=
  prim (fun w => (tt, emit (EvSleep d) (advance d w))).

Definition Pin_OUT (pin : Z) : M Z :=
  prim (fun w => (pin, emit (EvPinOut pin) w)).

Definition pin_value (pin : Z) (level : Z) : M unit :=
  prim (fun w => (tt, emit (EvValue pin level) w)).

Definition PWM_init (pin : Z) (freq : Z) : M PWM :=
  prim (fun w =>
    let h := {| pwm_id := next_id w; pwm_pin := pin |} in
    (h, emit (EvPwmInit h freq) (fresh_id w))).

Definition duty_u16 (h : PWM) (duty : Z) : M unit :=
  prim (fun w => (tt, emit (EvDutyU16 h duty) w)).

Definition deinit (h : PWM) : M unit :=
  prim (fun w => (tt, emit (EvDeinit h) w)).

Definition initial_world (t0 : Q) (interrupt : option nat) : world :=
  {| now := t0; pending := interrupt; next_id := O; trace := [] |}.

(* ================================================================= *)
(** ** The script *)

Definition RPWM_PIN : Z := 26.  (* GPIO pin for extending *)
Definition LPWM_PIN : Z := 27.  (* GPIO pin for retracting *)

(* ----------------------------------------------------------------- *)
(** *** [test_led] *)

Definition test_led_setup (pin_number : Z) (duration : Q) : M (Z * Q) :=
  led <- Pin_OUT pin_number ;;
  print (MsgLedStart pin_number duration) ;;
  start_time <- time_time ;;
  ret (led, start_time).

Definition test_led_body (fuel : nat) (delay_on delay_off duration : Q)
    (env : Z * Q) : M unit :=
  let (led, start_time) := env in
  while_ fuel
    (t <- time_time ;; ret (Py.lt (t - start_time) duration))
    (pin_value led 1 ;;
     time_sleep delay_on ;;
     t <- time_time ;;
     if Py.ge (t - start_time) duration then ret Break
     else
       pin_value led 0 ;;
       time_sleep delay_off ;;
       ret Continue).

Definition test_led_handler : M unit := print MsgTestStopped.

Definition test_led_final (env : Z * Q) : M unit := pin_value (fst env) 0.

Definition test_led (fuel : nat) (pin_number : Z)
    (delay_on delay_off duration : Q) : M unit :=
  env <- test_led_setup pin_number duration ;;
  try_except_finally
    (test_led_body fuel delay_on delay_off duration env)
    test_led_handler
    (test_led_final env).

(* ----------------------------------------------------------------- *)
(** *** [test_pwm] *)

Definition test_pwm_setup (pin_number : Z) (duration : Q) : M (PWM * Q) :=
  actuator_pwm <- PWM_init pin_number 1000 ;;
  print (MsgPwmStart duration) ;;
  start_time <- time_time ;;
  ret (actuator_pwm, start_time).

(** Body of both [for speed in range(...)] loops: the two are written
    out identically in the source. *)
Definition ramp_step (actuator_pwm : PWM) (start_time duration : Q)
    (speed : Z) : M loop_ctl :=
  t <- time_time ;;
  if Py.ge (t - start_time) duration then ret Break
  else
    duty_u16 actuator_pwm speed ;;
    time_sleep (1 # 20) ;;
    ret Continue.

(** One pass through the body of the outer [while]. *)
Definition test_pwm_iteration (actuator_pwm : PWM) (start_time duration : Q)
    : M loop_ctl :=
  print MsgSpeedingUp ;;
  for_ (Py.range 0 65535 1000) (ramp_step actuator_pwm start_time duration) ;;
  t <- time_time ;;
  if Py.ge (t - start_time) duration then ret Break
  else
    print MsgFullSpeed ;;
    duty_u16 actuator_pwm 65535 ;;
    time_sleep 1 ;;
    t <- time_time ;;
    if Py.ge (t - start_time) duration then ret Break
    else
      print MsgSlowingDown ;;
      for_ (Py.range 65535 0 (-1000))
           (ramp_step actuator_pwm start_time duration) ;;
      duty_u16 actuator_pwm 0 ;;
      time_sleep 1 ;;
      ret Continue.

Definition test_pwm_body (fuel : nat) (duration : Q) (env : PWM * Q)
    : M unit :=
  let (actuator_pwm, start_time) := env in
  while_ fuel
    (t <- time_time ;; ret (Py.lt (t - start_time) duration))
    (test_pwm_iteration actuator_pwm start_time duration).

Definition test_pwm_handler : M unit := print MsgTestStopped.

Definition test_pwm_final (env : PWM * Q) : M unit := duty_u16 (fst env) 0.

Definition test_pwm (fuel : nat) (pin_number : Z) (duration : Q) : M unit :=
  env <- test_pwm_setup pin_number duration ;;
  try_except_finally
    (test_pwm_body fuel duration env)
    test_pwm_handler
    (test_pwm_final env).

(* ----------------------------------------------------------------- *)
(** *** [run_one_cycle] *)

Definition run_one_cycle_setup (r_pwm_pin l_pwm_pin : Z) : M (PWM * PWM) :=
  print (MsgCycleStart r_pwm_pin l_pwm_pin) ;;
  extend_pwm <- PWM_init r_pwm_pin 1000 ;;
  retract_pwm <- PWM_init l_pwm_pin 1000 ;;
  ret (extend_pwm, retract_pwm).

Definition run_one_cycle_body (speed : Z) (duration : Q) (env : PWM * PWM)
    : M unit :=
  let (extend_pwm, retract_pwm) := env in
  let duty_cycle := duty_cycle speed in
  (* 1. EXTEND *)
  print (MsgExtending duration) ;;
  duty_u16 retract_pwm 0 ;;
  duty_u16 extend_pwm duty_cycle ;;
  time_sleep duration ;;
  (* 2. PAUSE *)
  print MsgPausing ;;
  duty_u16 extend_pwm 0 ;;
  time_sleep (1 # 2) ;;
  (* 3. RETRACT *)
  print (MsgRetracting duration) ;;
  duty_u16 retract_pwm duty_cycle ;;
  time_sleep duration.

Definition run_one_cycle_handler : M unit := print MsgCycleInterrupted.

Definition run_one_cycle_final (env : PWM * PWM) : M unit :=
  let (extend_pwm, retract_pwm) := env in
  (* 4. HARD STOP *)
  print MsgCycleComplete ;;
  duty_u16 extend_pwm 0 ;;
  duty_u16 retract_pwm 0 ;;
  deinit extend_pwm ;;
  deinit retract_pwm.

Definition run_one_cycle (r_pwm_pin l_pwm_pin : Z) (speed : Z) (duration : Q)
    : M unit :=
  env <- run_one_cycle_setup r_pwm_pin l_pwm_pin ;;
  try_except_finally
    (run_one_cycle_body speed duration env)
    run_one_cycle_handler
    (run_one_cycle_final env).

(* ----------------------------------------------------------------- *)
(** *** [extend_only] *)

(** The retract channel is commented out of [extend_only] everywhere:
    its acquisition, its zeroing before the drive, its zeroing and its
    release in [finally]. *)
Definition extend_only_setup (duration : Q) (speed : Z) : M PWM :=
  print (MsgExtendOnly duration speed) ;;
  ext <- PWM_init RPWM_PIN 1000 ;;
  ret ext.

Definition extend_only_body (duration : Q) (speed : Z) (ext : PWM) : M unit :=
  let duty := duty_cycle speed in
  duty_u16 ext duty ;;
  time_sleep duration.

Definition extend_only_handler : M unit := print MsgInterrupted.

Definition extend_only_final (ext : PWM) : M unit :=
  duty_u16 ext 0 ;;
  deinit ext ;;
  print MsgExtendStopped.

Definition extend_only (duration : Q) (speed : Z) : M unit :=
  ext <- extend_only_setup duration speed ;;
  try_except_finally
    (extend_only_body duration speed ext)
    extend_only_handler
    (extend_only_final ext).

(* ----------------------------------------------------------------- *)
(** *** [retract_only] *)

Definition retract_only_setup (duration : Q) (speed : Z) : M (PWM * PWM) :=
  print (MsgRetractOnly duration speed) ;;
  ext <- PWM_init RPWM_PIN 1000 ;;
  ret_ <- PWM_init LPWM_PIN 1000 ;;
  ret (ext, ret_).

Definition retract_only_body (duration : Q) (speed : Z) (env : PWM * PWM)
    : M unit :=
  let (ext, ret_) := env in
  let duty := duty_cycle speed in
  duty_u16 ext 0 ;;
  duty_u16 ret_ duty ;;
  time_sleep duration.

Definition retract_only_handler : M unit := print MsgInterrupted.

Definition retract_only_final (env : PWM * PWM) : M unit :=
  let (ext, ret_) := env in
  duty_u16 ext 0 ;;
  duty_u16 ret_ 0 ;;
  deinit ext ;;
  deinit ret_ ;;
  print MsgRetractStopped.

Definition retract_only (duration : Q) (speed : Z) : M unit :=
  env <- retract_only_setup duration speed ;;
  try_except_finally
    (retract_only_body duration speed env)
    retract_only_handler
    (retract_only_final env).

(* ================================================================= *)
(** ** Reading a trace *)

Definition run {A} (m : M A) (t0 : Q) (interrupt : option nat)
    : result A * world :=
  m (initial_world t0 interrupt).

Definition outcome {A} (rw : result A * world) : result A := fst rw.
Definition events {A} (rw : result A * world) : list event := trace (snd rw).
Definition clock {A} (rw : result A * world) : Q := now (snd rw).

(** The duty registers of the board, indexed by pin.  [duty_u16] stores
    its argument as it is given; nothing else writes a register. *)
Definition hardware : Type := Z -> Z.

Definition set_duty (pin v : Z) (hw : hardware) : hardware :=
  fun p => if p =? pin then v else hw p.

Definition apply_event (hw : hardware) (e : event) : hardware :=
  match e with
  | EvDutyU16 h v => set_duty (pwm_pin h) v hw
  | _ => hw
  end.

Definition replay (hw0 : hardware) (tr : list event) : hardware :=
  fold_left apply_event tr hw0.

(** A property of a state folded over the trace holds at every instant
    of the execution: before the first event and after each one. *)
Definition at_every_instant {S} (step : S -> event -> S) (P : S -> Prop)
    (s0 : S) (tr : list event) : Prop :=
  forall n, P (fold_left step (firstn n tr) s0).

(** At most one of the two channels has a non-zero duty cycle. *)
Definition exclusive (a b : Z) (hw : hardware) : Prop :=
  hw a = 0 \/ hw b = 0.

(** The four numbered parts of [run_one_cycle], entered at their [print]. *)
Inductive phase : Type :=
| PhaseSetup | PhaseExtend | PhasePause | PhaseRetract | PhaseStop.

Definition phase_after (ph : phase) (e : event) : phase :=
  match e with
  | EvPrint (MsgExtending _) => PhaseExtend
  | EvPrint MsgPausing => PhasePause
  | EvPrint (MsgRetracting _) => PhaseRetract
  | EvPrint MsgCycleComplete => PhaseStop
  | _ => ph
  end.

Definition cycle_step (s : hardware * phase) (e : event) : hardware * phase :=
  (apply_event (fst s) e, phase_after (snd s) e).

Definition phase_interlock (r l : Z) (s : hardware * phase) : Prop :=
  match snd s with
  | PhaseExtend => fst s l = 0
  | PhaseRetract => fst s r = 0
  | _ => True
  end.



(** The PWM objects created in a trace. *)
Fixpoint acquired (tr : list event) : list PWM :=
  match tr with
  | [] => []
  | EvPwmInit h _ :: tr' => h :: acquired tr'
  | _ :: tr' => acquired tr'
  end.

(** One entry per [h.deinit()], holding the duty last written through
    [h] before that call. *)
Fixpoint release_log (h : PWM) (last : option Z) (tr : list event)
    : list (option Z) :=
  match tr with
  | [] => []
  | EvDutyU16 h' v :: tr' =>
      release_log h (if same_pwm h h' then Some v else last) tr'
  | EvDeinit h' :: tr' =>
      if same_pwm h h' then last :: release_log h last tr'
      else release_log h last tr'
  | _ :: tr' => release_log h last tr'
  end.

(** Forced to 0, then released, exactly once. *)
Definition zeroed_then_released_once (tr : list event) (h : PWM) : Prop :=
  release_log h None tr = [Some 0].

(** Does any event of the trace touch [pin]? *)
Definition touches (pin : Z) (e : event) : bool :=
  match e with
  | EvPinOut p | EvValue p _ => p =? pin
  | EvPwmInit h _ | EvDutyU16 h _ | EvDeinit h => pwm_pin h =? pin
  | _ => false
  end.

(** Is the first write to the [own] channel preceded by a write of 0 to
    the [opp] channel? *)
Fixpoint opposing_zeroed_first (own opp : Z) (zeroed : bool)
    (tr : list event) : bool :=
  match tr with
  | [] => false
  | EvDutyU16 h v :: tr' =>
      if pwm_pin h =? own then zeroed
      else if pwm_pin h =? opp then opposing_zeroed_first own opp (v =? 0) tr'
      else opposing_zeroed_first own opp zeroed tr'
  | _ :: tr' => opposing_zeroed_first own opp zeroed tr'
  end.

(** Clock readings do not matter to the shape of a trace. *)
Definition shape_of (e : event) : event :=
  match e with
  | EvTime _ => EvTime 0
  | _ => e
  end.

Definition shape (tr : list event) : list event := map shape_of tr.

(** The events one complete pass of the [test_pwm] loop body adds. *)
Definition ramp_events (h : PWM) (speeds : list Z) : list event :=
  flat_map (fun v => [EvTime 0; EvDutyU16 h v; EvSleep (1 # 20)]) speeds.

Definition full_iteration (h : PWM) : list event :=
  [EvPrint MsgSpeedingUp]
  ++ ramp_events h (map (fun k => 1000 * Z.of_nat k) (seq 0 66))
  ++ [EvTime 0; EvPrint MsgFullSpeed; EvDutyU16 h 65535; EvSleep 1;
      EvTime 0; EvPrint MsgSlowingDown]
  ++ ramp_events h (map (fun k => 65535 - 1000 * Z.of_nat k) (seq 0 66))
  ++ [EvDutyU16 h 0; EvSleep 1].

(** Guard discipline of the timed loops.  The state is [Some (fresh,
    stopped)]: [fresh] when the clock has been read since the last wait,
    [stopped] when the last event wrote duty 0.  A wait needs a fresh
    reading; with [lenient] a wait right after a write of 0 is let
    through as well.  [None]: some wait was not guarded. *)
Definition guard_step (lenient : bool) (st : option (bool * bool))
    (e : event) : option (bool * bool) :=
  match st with
  | None => None
  | Some (fresh, stopped) =>
      match e with
      | EvTime _ => Some (true, false)
      | EvSleep _ =>
          if fresh || (lenient && stopped) then Some (false, false) else None
      | EvDutyU16 _ v => Some (fresh, v =? 0)
      | _ => Some (fresh, false)
      end
  end.

Definition guards (lenient : bool) (tr : list event) : option (bool * bool) :=
  fold_left (guard_step lenient) tr (Some (false, false)).

Definition every_wait_guarded (tr : list event) : Prop :=
  guards false tr <> None.

Definition every_wait_guarded_but_stop (tr : list event) : Prop :=
  guards true tr <> None.

(** The registers together with the fact that some duty has been
    written since the function was entered. *)
Definition written_step (s : hardware * bool) (e : event) : hardware * bool :=
  (apply_event (fst s) e,
   match e with EvDutyU16 _ _ => true | _ => snd s end).

(** The registers, the phase of [run_one_cycle], and whether a wait has
    run to its end inside the pause phase. *)
Definition deadband_step (s : hardware * phase * bool) (e : event)
    : hardware * phase * bool :=
  let '(hw, ph, rested) := s in
  (apply_event hw e, phase_after ph e,
   match e, ph with
   | EvSleep _, PhasePause => true
   | _, _ => rested
   end).


(** The trace of a run cut by the interrupt at step [k] of the [try]
    suite: what the uninterrupted run did before that step, the
    interrupt, the handler's message and the whole [finally] suite. *)
Definition cut_trace (setup body : list event) (k : nat) (log : message)
    (final : list event) : list event :=
  setup ++ firstn k body ++ [EvKeyboardInterrupt; EvPrint log] ++ final.

Definition is_zero_write (e : event) : bool :=
  match e with
  | EvDutyU16 _ v => v =? 0
  | _ => true
  end.

Definition duty_in_u16 (e : event) : Prop :=
  match e with
  | EvDutyU16 _ v => 0 <= v <= 65535
  | _ => True
  end.

(** What the uninterrupted sequences of the three actuator functions
    emit, part by part.  [ext] and [ret_] are the PWM objects in the
    order the functions create them. *)
Definition pwm0 (pin : Z) : PWM := {| pwm_id := 0; pwm_pin := pin |}.
Definition pwm1 (pin : Z) : PWM := {| pwm_id := 1; pwm_pin := pin |}.

Definition cycle_setup_events (r l : Z) : list event :=
  [EvPrint (MsgCycleStart r l); EvPwmInit (pwm0 r) 1000;
   EvPwmInit (pwm1 l) 1000].

Definition cycle_body_events (r l d : Z) (duration : Q) : list event :=
  [EvPrint (MsgExtending duration); EvDutyU16 (pwm1 l) 0;
   EvDutyU16 (pwm0 r) d; EvSleep duration;
   EvPrint MsgPausing; EvDutyU16 (pwm0 r) 0; EvSleep (1 # 2);
   EvPrint (MsgRetracting duration); EvDutyU16 (pwm1 l) d;
   EvSleep duration].

Definition cycle_final_events (r l : Z) : list event :=
  [EvPrint MsgCycleComplete; EvDutyU16 (pwm0 r) 0; EvDutyU16 (pwm1 l) 0;
   EvDeinit (pwm0 r); EvDeinit (pwm1 l)].

Definition extend_setup_events (duration : Q) (speed : Z) : list event :=
  [EvPrint (MsgExtendOnly duration speed); EvPwmInit (pwm0 RPWM_PIN) 1000].

Definition extend_body_events (d : Z) (duration : Q) : list event :=
  [EvDutyU16 (pwm0 RPWM_PIN) d; EvSleep duration].

Definition extend_final_events : list event :=
  [EvDutyU16 (pwm0 RPWM_PIN) 0; EvDeinit (pwm0 RPWM_PIN);
   EvPrint MsgExtendStopped].

Definition retract_setup_events (duration : Q) (speed : Z) : list event :=
  [EvPrint (MsgRetractOnly duration speed); EvPwmInit (pwm0 RPWM_PIN) 1000;
   EvPwmInit (pwm1 LPWM_PIN) 1000].

Definition retract_body_events (d : Z) (duration : Q) : list event :=
  [EvDutyU16 (pwm0 RPWM_PIN) 0; EvDutyU16 (pwm1 LPWM_PIN) d;
   EvSleep duration].

Definition retract_final_events : list event :=
  [EvDutyU16 (pwm0 RPWM_PIN) 0; EvDutyU16 (pwm1 LPWM_PIN) 0;
   EvDeinit (pwm0 RPWM_PIN); EvDeinit (pwm1 LPWM_PIN);
   EvPrint MsgRetractStopped].

(** Every event a computation adds to the trace satisfies [P]. *)
Definition emits_only (P : event -> Prop) {A} (m : M A) : Prop :=
  forall w, Forall P (trace w) -> Forall P (trace (snd (m w))).

(** A computation keeps the interrupt single-shot: without a pending
    interrupt none appears, and after it has raised none is pending. *)
Definition single_shot {A} (m : M A) : Prop :=
  forall w,
    (pending w = None -> pending (snd (m w)) = None)
    /\ (forall e, fst (m w) = Raise e -> pending (snd (m w)) = None).

(** Time elapsed since [start_time]. *)
Definition elapsed (start_time : Q) (w : world) : Q := (now w - start_time)%Q.

(** One pass through the body of the [while] of [test_led]. *)
Definition led_pass (led : Z) (delay_on delay_off start_time duration : Q)
    : M loop_ctl :=
  pin_value led 1 ;;
  time_sleep delay_on ;;
  t <- time_time ;;
  if Py.ge (t - start_time) duration then ret Break
  else
    pin_value led 0 ;;
    time_sleep delay_off ;;
    ret Continue.

(** The hardware events of a trace concern only the listed pins. *)
Definition on_pins (pins : list Z) (e : event) : Prop :=
  match e with
  | EvPinOut p | EvValue p _ => In p pins
  | EvPwmInit h _ | EvDutyU16 h _ | EvDeinit h => In (pwm_pin h) pins
  | _ => True
  end.

(** Every value a computation returns satisfies [R]. *)
Definition returns {A} (R : A -> Prop) (m : M A) : Prop :=
  forall w, match fst (m w) with Ok a => R a | _ => True end.

(** [m] run with the interrupt due at its step [k] is [m] run without
    an interrupt, cut at that step: it raises there, having added the
    first [k] events of the quiet run; if the quiet run is shorter than
    [k] steps, [m] runs as if quiet and passes the rest of the delay
    on. *)
Definition cuts_cleanly {A} (m : M A) : Prop :=
  forall w, pending w = None ->
  exists added,
    trace (snd (m w)) = trace w ++ added
    /\ pending (snd (m w)) = None
    /\ (forall e, fst (m w) <> Raise e)
    /\ forall k,
         ((k < length added)%nat ->
          fst (m (with_pending (Some k) w)) = Raise KeyboardInterrupt
          /\ trace (snd (m (with_pending (Some k) w)))
             = trace w ++ firstn k added ++ [EvKeyboardInterrupt]
          /\ pending (snd (m (with_pending (Some k) w))) = None)
         /\ ((length added <= k)%nat ->
             m (with_pending (Some k) w)
             = (fst (m w),
                with_pending (Some (k - length added)%nat) (snd (m w)))).

(** What the set-up of the two test functions emits. *)
Definition led_setup_events (pin : Z) (D t0 : Q) : list event :=
  [EvPinOut pin; EvPrint (MsgLedStart pin D); EvTime t0].

Definition pwm_setup_events (pin : Z) (D t0 : Q) : list event :=
  [EvPwmInit (pwm0 pin) 1000; EvPrint (MsgPwmStart D); EvTime t0].

(* ================================================================= *)
(** * Properties *)

(* ----------------------------------------------------------------- *)
(** ** The duty-cycle conversion *)

Lemma duty_cycle_quot (speed : Z) :
  duty_cycle speed = Z.quot (speed * 65535) 100.
Proof.
  unfold duty_cycle, Py.int, Py.truediv. simpl.
  rewrite Z.mul_1_r. reflexivity.
Qed.

Lemma duty_cycle_floor (speed : Z) :
  0 <= speed -> duty_cycle speed = speed * 65535 / 100.
Proof.
  intros H. rewrite duty_cycle_quot. apply Z.quot_div_nonneg; lia.
Qed.

Lemma duty_cycle_nonneg_bounds (speed : Z) :
  0 <= speed ->
  100 * duty_cycle speed <= speed * 65535 < 100 * duty_cycle speed + 100.
Proof.
  intros H. rewrite duty_cycle_floor by assumption.
  pose proof (Z.mul_div_le (speed * 65535) 100 ltac:(lia)).
  pose proof (Z.mul_succ_div_gt (speed * 65535) 100 ltac:(lia)).
  lia.
Qed.

Lemma duty_cycle_neg (speed : Z) :
  speed < 0 -> duty_cycle speed = - ((- speed) * 65535 / 100).
Proof.
  intros H. rewrite duty_cycle_quot.
  replace (speed * 65535) with (- ((- speed) * 65535)) by lia.
  rewrite Z.quot_opp_l by lia.
  rewrite Z.quot_div_nonneg by lia. reflexivity.
Qed.

(** On the documented range the double-precision evaluation of
    [int(speed * 65535 / 100)] gives the exact truncated quotient. *)
Lemma binary64_agrees_on_range :
  forallb binary64_agrees (map Z.of_nat (seq 0 101)) = true.
Proof. vm_compute. reflexivity. Qed.

Lemma binary64_duty_cycle (speed : Z) :
  0 <= speed <= 100 -> Binary64.duty_cycle speed = Some (duty_cycle speed).
Proof.
  intros H.
  pose proof binary64_agrees_on_range as A.
  rewrite forallb_forall in A.
  specialize (A speed).
  assert (I : In speed (map Z.of_nat (seq 0 101))).
  { apply in_map_iff. exists (Z.to_nat speed). split; [lia |].
    apply in_seq. lia. }
  specialize (A I). unfold binary64_agrees in A.
  destruct (Binary64.duty_cycle speed) as [d|]; [| discriminate].
  apply Z.eqb_eq in A. congruence.
Qed.

(** C9: for every integer speed in [0,100] the computed duty cycle lies
    in [0,65535]; speed 0 gives duty 0 and speed 100 gives duty 65535. *)
Theorem C9_duty_cycle_range (speed : Z) :
  0 <= speed <= 100 ->
  0 <= duty_cycle speed <= 65535
  /\ duty_cycle 0 = 0
  /\ duty_cycle 100 = 65535.
Proof.
  intros H. split; [| split; reflexivity].
  pose proof (duty_cycle_nonneg_bounds speed ltac:(lia)). lia.
Qed.

Lemma C9_duty_cycle_range_witness :
  0 <= 37 <= 100
  /\ (0 <= duty_cycle 37 <= 65535 /\ duty_cycle 0 = 0 /\ duty_cycle 100 = 65535).
Proof.
  split; [lia |]. apply (C9_duty_cycle_range 37). lia.
Defined.

(* ----------------------------------------------------------------- *)
(** ** More on the conversion *)

Lemma duty_cycle_mono (a b : Z) : a <= b -> duty_cycle a <= duty_cycle b.
Proof.
  intros H. rewrite !duty_cycle_quot. apply Z.quot_le_mono; lia.
Qed.








(** X4: On IEEE doubles the expression gives the same integer as the exact
    quotient, for every percentage. *)
Theorem binary64_duty_cycle_exact (speed : Z) :
  0 <= speed <= 100 ->
  Binary64.duty_cycle speed = Some (speed * 65535 / 100).
Proof.
  intros H. rewrite binary64_duty_cycle by assumption.
  rewrite duty_cycle_floor by lia. reflexivity.
Qed.

Lemma binary64_duty_cycle_exact_witness :
  0 <= 50 <= 100 /\ Binary64.duty_cycle 50 = Some (50 * 65535 / 100).
Proof.
  split; [lia |]. apply (binary64_duty_cycle_exact 50). lia.
Defined.

(* ----------------------------------------------------------------- *)
(** ** Running the straight-line entry points *)

Ltac exec :=
  cbv [run outcome events clock initial_world
       run_one_cycle run_one_cycle_setup run_one_cycle_body
       run_one_cycle_handler run_one_cycle_final
       extend_only extend_only_setup extend_only_body extend_only_handler
       extend_only_final
       retract_only retract_only_setup retract_only_body retract_only_handler
       retract_only_final
       test_led_setup test_led_handler test_led_final
       test_pwm_setup test_pwm_handler test_pwm_final
       try_except_finally bind ret prim print time_time time_sleep Pin_OUT
       pin_value PWM_init duty_u16 deinit emit advance with_pending fresh_id
       now pending next_id trace fst snd app Nat.add
       cut_trace firstn cycle_setup_events cycle_body_events
       cycle_final_events extend_setup_events extend_body_events
       extend_final_events retract_setup_events retract_body_events
       retract_final_events pwm0 pwm1].

(** Case split on an interrupt step below a bound. *)
Ltac below k H :=
  repeat (destruct k as [| k]; [| try (exfalso; lia)]); try (exfalso; lia).

Lemma at_every_instant_nil {S} (step : S -> event -> S) (P : S -> Prop) s0 :
  P s0 -> at_every_instant step P s0 [].
Proof. intros H n. destruct n; assumption. Qed.

Lemma at_every_instant_cons {S} (step : S -> event -> S) (P : S -> Prop)
    s0 e tr :
  P s0 -> at_every_instant step P (step s0 e) tr ->
  at_every_instant step P s0 (e :: tr).
Proof. intros H0 H n. destruct n; [assumption | apply H]. Qed.

Lemma at_every_instant_end {S} (step : S -> event -> S) (P : S -> Prop)
    s0 tr :
  at_every_instant step P s0 tr -> P (fold_left step tr s0).
Proof.
  intros H. specialize (H (length tr)). now rewrite firstn_all in H.
Qed.

Ltac instants tac :=
  repeat (apply at_every_instant_cons; [tac |]);
  apply at_every_instant_nil; tac.


Ltac regs :=
  cbv [exclusive phase_interlock cycle_step written_step deadband_step
       apply_event set_duty phase_after pwm_pin fst snd replay fold_left
       RPWM_PIN LPWM_PIN];
  repeat match goal with
         | H : (_ =? _) = false |- _ => rewrite !H
         end;
  rewrite ?Z.eqb_refl; cbv beta iota;
  try solve [intuition (auto; congruence)].

(** Every interrupt schedule of an entry point with [n] steps. *)
Ltac upto k n tac :=
  lazymatch n with
  | O => exec; tac
  | S ?m => destruct k as [| k]; [exec; tac | upto k m tac]
  end.

Ltac schedules intr n tac :=
  let k := fresh "k" in
  destruct intr as [k |]; [upto k n tac | exec; tac].


Section Actuator.

Variables (speed : Z) (duration t0 : Q).

Section Cycle.

Variables r l : Z.

Abbreviation cycle i := (run (run_one_cycle r l speed duration) t0 i).




Lemma run_one_cycle_cleanup (i : option nat) :
  outcome (cycle i) = Ok tt ->
  acquired (events (cycle i)) = [pwm0 r; pwm1 l]
  /\ Forall (zeroed_then_released_once (events (cycle i)))
            (acquired (events (cycle i)))
  /\ forall hw0, replay hw0 (events (cycle i)) r = 0
                 /\ replay hw0 (events (cycle i)) l = 0.
Proof.
  schedules i 18%nat
    ltac:(intros E;
          first
            [ discriminate E
            | split; [reflexivity |];
              split; [repeat constructor |];
              intros hw0; regs;
              destruct (Z.eqb_spec r l); split; reflexivity ]).
Qed.


Lemma run_one_cycle_in_setup (k : nat) :
  (k < 3)%nat ->
  outcome (cycle (Some k)) = Raise KeyboardInterrupt
  /\ events (cycle (Some k))
     = firstn k (cycle_setup_events r l) ++ [EvKeyboardInterrupt].
Proof.
  intros H. below k H; exec; split; reflexivity.
Qed.

Hypothesis distinct : r <> l.

Lemma run_one_cycle_exclusive (i : option nat) (hw0 : hardware) :
  exclusive r l hw0 ->
  at_every_instant apply_event (exclusive r l) hw0 (events (cycle i)).
Proof.
  intros X.
  assert (Hrl : (r =? l) = false) by (apply Z.eqb_neq; exact distinct).
  assert (Hlr : (l =? r) = false) by (apply Z.eqb_neq; congruence).
  schedules i 18%nat ltac:(instants regs).
Qed.

Lemma run_one_cycle_exclusive_after_write (i : option nat) (hw0 : hardware) :
  at_every_instant written_step
    (fun s => snd s = true -> exclusive r l (fst s))
    (hw0, false) (events (cycle i)).
Proof.
  assert (Hrl : (r =? l) = false) by (apply Z.eqb_neq; exact distinct).
  assert (Hlr : (l =? r) = false) by (apply Z.eqb_neq; congruence).
  schedules i 18%nat ltac:(instants regs).
Qed.

Lemma run_one_cycle_phases (i : option nat) (hw0 : hardware) :
  hw0 l = 0 ->
  at_every_instant cycle_step (phase_interlock r l) (hw0, PhaseSetup)
    (events (cycle i)).
Proof.
  intros X.
  assert (Hrl : (r =? l) = false) by (apply Z.eqb_neq; exact distinct).
  assert (Hlr : (l =? r) = false) by (apply Z.eqb_neq; congruence).
  schedules i 18%nat ltac:(instants regs).
Qed.

Lemma run_one_cycle_rests (i : option nat) (hw0 : hardware) :
  hw0 l = 0 ->
  at_every_instant deadband_step
    (fun s => fst (fst s) l <> 0 -> snd s = true)
    (hw0, PhaseSetup, false) (events (cycle i)).
Proof.
  intros X.
  assert (Hrl : (r =? l) = false) by (apply Z.eqb_neq; exact distinct).
  assert (Hlr : (l =? r) = false) by (apply Z.eqb_neq; congruence).
  schedules i 18%nat ltac:(instants regs).
Qed.


End Cycle.

Section ExtendOnly.

Abbreviation ext_run i := (run (extend_only duration speed) t0 i).

Lemma extend_only_uninterrupted :
  outcome (ext_run None) = Ok tt
  /\ events (ext_run None)
     = extend_setup_events duration speed
       ++ extend_body_events (duty_cycle speed) duration
       ++ extend_final_events
  /\ clock (ext_run None) = (t0 + duration)%Q.
Proof. exec. repeat split. Qed.



Lemma extend_only_cleanup (i : option nat) :
  outcome (ext_run i) = Ok tt ->
  acquired (events (ext_run i)) = [pwm0 RPWM_PIN]
  /\ Forall (zeroed_then_released_once (events (ext_run i)))
            (acquired (events (ext_run i)))
  /\ forall hw0, replay hw0 (events (ext_run i)) RPWM_PIN = 0.
Proof.
  schedules i 7%nat
    ltac:(intros E;
          first
            [ discriminate E
            | split; [reflexivity |];
              split; [repeat constructor |];
              intros hw0; reflexivity ]).
Qed.

Lemma extend_only_alone (i : option nat) :
  forallb (fun e => negb (touches LPWM_PIN e)) (events (ext_run i)) = true
  /\ opposing_zeroed_first RPWM_PIN LPWM_PIN false (events (ext_run i))
     = false.
Proof.
  schedules i 7%nat ltac:(split; reflexivity).
Qed.

End ExtendOnly.

Section RetractOnly.

Abbreviation ret_run i := (run (retract_only duration speed) t0 i).

Lemma retract_only_uninterrupted :
  outcome (ret_run None) = Ok tt
  /\ events (ret_run None)
     = retract_setup_events duration speed
       ++ retract_body_events (duty_cycle speed) duration
       ++ retract_final_events
  /\ clock (ret_run None) = (t0 + duration)%Q.
Proof. exec. repeat split. Qed.



Lemma retract_only_cleanup (i : option nat) :
  outcome (ret_run i) = Ok tt ->
  acquired (events (ret_run i)) = [pwm0 RPWM_PIN; pwm1 LPWM_PIN]
  /\ Forall (zeroed_then_released_once (events (ret_run i)))
            (acquired (events (ret_run i)))
  /\ forall hw0, replay hw0 (events (ret_run i)) RPWM_PIN = 0
                 /\ replay hw0 (events (ret_run i)) LPWM_PIN = 0.
Proof.
  schedules i 11%nat
    ltac:(intros E;
          first
            [ discriminate E
            | split; [reflexivity |];
              split; [repeat constructor |];
              intros hw0; split; reflexivity ]).
Qed.

Lemma retract_only_exclusive (i : option nat) (hw0 : hardware) :
  exclusive RPWM_PIN LPWM_PIN hw0 ->
  at_every_instant apply_event (exclusive RPWM_PIN LPWM_PIN) hw0
    (events (ret_run i)).
Proof.
  intros X. schedules i 11%nat ltac:(instants ltac:(first [exact X | regs])).
Qed.

Lemma retract_only_exclusive_after_write (i : option nat) (hw0 : hardware) :
  at_every_instant written_step
    (fun s => snd s = true -> exclusive RPWM_PIN LPWM_PIN (fst s))
    (hw0, false) (events (ret_run i)).
Proof.
  schedules i 11%nat ltac:(instants regs).
Qed.


End RetractOnly.

End Actuator.

(* ----------------------------------------------------------------- *)
(** ** Steps without a pending interrupt *)

Lemma prim_quiet {A} (act : world -> A * world) (w : world) :
  pending w = None -> prim act w = (Ok (fst (act w)), snd (act w)).
Proof.
  intros H. unfold prim. rewrite H. destruct (act w); reflexivity.
Qed.

Lemma time_time_quiet (w : world) :
  pending w = None -> time_time w = (Ok (now w), emit (EvTime (now w)) w).
Proof. intros H. unfold time_time. now rewrite prim_quiet. Qed.

Lemma time_sleep_quiet (d : Q) (w : world) :
  pending w = None ->
  time_sleep d w = (Ok tt, emit (EvSleep d) (advance d w)).
Proof. intros H. unfold time_sleep. now rewrite prim_quiet. Qed.

Lemma print_quiet (m : message) (w : world) :
  pending w = None -> print m w = (Ok tt, emit (EvPrint m) w).
Proof. intros H. unfold print. now rewrite prim_quiet. Qed.

Lemma pin_value_quiet (pin level : Z) (w : world) :
  pending w = None -> pin_value pin level w = (Ok tt, emit (EvValue pin level) w).
Proof. intros H. unfold pin_value. now rewrite prim_quiet. Qed.

Lemma duty_u16_quiet (h : PWM) (v : Z) (w : world) :
  pending w = None -> duty_u16 h v w = (Ok tt, emit (EvDutyU16 h v) w).
Proof. intros H. unfold duty_u16. now rewrite prim_quiet. Qed.

Ltac world_simpl :=
  cbn [now pending trace next_id emit advance with_pending fresh_id fst snd].

Ltac quiet :=
  first
    [ rewrite time_time_quiet by (world_simpl; assumption)
    | rewrite time_sleep_quiet by (world_simpl; assumption)
    | rewrite print_quiet by (world_simpl; assumption)
    | rewrite pin_value_quiet by (world_simpl; assumption)
    | rewrite duty_u16_quiet by (world_simpl; assumption) ];
  cbv beta iota.

Lemma guards_snoc (b : bool) (tr : list event) (e : event) :
  guards b (tr ++ [e]) = guard_step b (guards b tr) e.
Proof. unfold guards. now rewrite fold_left_app. Qed.

Lemma py_ge_true (x y : Q) : Py.ge x y = true -> (y <= x)%Q.
Proof. unfold Py.ge. apply Qle_bool_iff. Qed.

Lemma py_ge_false (x y : Q) : Py.ge x y = false -> (x < y)%Q.
Proof.
  unfold Py.ge. intros H. apply Qnot_le_lt. intros L.
  apply Qle_bool_iff in L. congruence.
Qed.

Lemma py_lt_true (x y : Q) : Py.lt x y = true -> (x < y)%Q.
Proof.
  unfold Py.lt. intros H. apply negb_true_iff in H. now apply py_ge_false.
Qed.

Lemma py_lt_false (x y : Q) : Py.lt x y = false -> (y <= x)%Q.
Proof.
  unfold Py.lt. intros H. apply negb_false_iff in H. now apply py_ge_true.
Qed.

(* ----------------------------------------------------------------- *)
(** ** The timed loop of [test_pwm] *)

Section PwmTiming.

Variables (h : PWM) (s D : Q).

(** One ramp never waits once the budget is spent: at its end less than
    one step (50 ms) has been added past the budget. *)
Lemma ramp_quiet (b : bool) (xs : list Z) (w : world) :
  pending w = None ->
  guards b (trace w) <> None ->
  (elapsed s w < D + (1 # 20))%Q ->
  exists w',
    for_ xs (ramp_step h s D) w = (Ok tt, w')
    /\ pending w' = None
    /\ guards b (trace w') <> None
    /\ (now w <= now w')%Q
    /\ (elapsed s w' < D + (1 # 20))%Q.
Proof.
  revert w. induction xs as [| x xs IH]; intros w Hq Hg Ht.
  - exists w. cbn. repeat split; try assumption. apply Qle_refl.
  - cbn [for_]. unfold bind at 1. unfold ramp_step. unfold bind at 1.
    quiet.
    destruct (guards b (trace w)) as [[f z] |] eqn:G; [| congruence].
    destruct (Py.ge (now w - s) D) eqn:C.
    + cbn. eexists. split; [reflexivity |]. world_simpl.
      repeat split; try assumption.
      * rewrite guards_snoc, G. cbn. discriminate.
      * apply Qle_refl.
    + apply py_ge_false in C.
      unfold bind at 1. quiet. unfold bind at 1. quiet. cbn [ret].
      match goal with |- context [for_ xs _ ?w1] =>
        destruct (IH w1) as (w' & E & Hq' & Hg' & Hn' & Ht')
      end.
      * world_simpl. assumption.
      * world_simpl. rewrite !guards_snoc, G. cbn. discriminate.
      * unfold elapsed in *. world_simpl. lra.
      * exists w'. split; [exact E |].
        repeat split; try assumption.
        revert Hn'. world_simpl. lra.
Qed.

Lemma iteration_quiet (w : world) :
  pending w = None ->
  guards true (trace w) <> None ->
  (elapsed s w < D)%Q ->
  exists c w',
    test_pwm_iteration h s D w = (Ok c, w')
    /\ pending w' = None
    /\ guards true (trace w') <> None
    /\ match c with
       | Break => (D <= elapsed s w' /\ elapsed s w' < D + 1)%Q
       | Continue => (now w + 1 <= now w' /\ elapsed s w' < D + (21 # 20))%Q
       end.
Proof.
  intros Hq Hg Ht.
  unfold test_pwm_iteration. unfold bind at 1. quiet.
  unfold bind at 1.
  match goal with |- context [for_ ?xs _ ?w1] =>
    destruct (ramp_quiet true xs w1) as (w2 & E2 & Hq2 & Hg2 & Hn2 & Ht2)
  end.
  { world_simpl. assumption. }
  { world_simpl. rewrite guards_snoc.
    destruct (guards true (trace w)) as [[f z] |]; [cbn; discriminate | congruence]. }
  { unfold elapsed in *. world_simpl. lra. }
  rewrite E2. cbv beta iota. revert Hn2. world_simpl. intros Hn2.
  unfold bind at 1. quiet.
  destruct (Py.ge (now w2 - s) D) eqn:C1.
  { apply py_ge_true in C1. exists Break. eexists. split; [reflexivity |].
    world_simpl. split; [assumption |]. split.
    - rewrite guards_snoc.
      destruct (guards true (trace w2)) as [[f z] |]; [cbn; discriminate | congruence].
    - unfold elapsed in *. world_simpl. split; lra. }
  apply py_ge_false in C1.
  unfold bind at 1. quiet. unfold bind at 1. quiet.
  unfold bind at 1. quiet. unfold bind at 1. quiet.
  world_simpl.
  destruct (guards true (trace w2)) as [[f2 z2] |] eqn:G2; [| congruence].
  destruct (Py.ge (now w2 + 1 - s) D) eqn:C2.
  { apply py_ge_true in C2. exists Break. eexists. split; [reflexivity |].
    world_simpl. split; [assumption |]. split.
    - rewrite !guards_snoc, G2. cbn. discriminate.
    - unfold elapsed in *. world_simpl. split; lra. }
  apply py_ge_false in C2.
  unfold bind at 1. quiet. unfold bind at 1.
  match goal with |- context [for_ ?xs _ ?w3] =>
    destruct (ramp_quiet true xs w3) as (w4 & E4 & Hq4 & Hg4 & Hn4 & Ht4)
  end.
  { world_simpl. assumption. }
  { world_simpl. rewrite !guards_snoc, G2. cbn. discriminate. }
  { unfold elapsed in *. world_simpl. lra. }
  rewrite E4. cbv beta iota. revert Hn4. world_simpl. intros Hn4.
  unfold bind at 1. quiet. unfold bind at 1. quiet. cbn [ret].
  exists Continue. eexists. split; [reflexivity |].
  world_simpl. split; [assumption |]. split.
  - rewrite !guards_snoc.
    destruct (guards true (trace w4)) as [[f4 z4] |]; [| congruence].
    cbn. rewrite orb_true_r. discriminate.
  - unfold elapsed in *. world_simpl. split; lra.
Qed.

Lemma pwm_loop_quiet (n : nat) (w : world) :
  pending w = None ->
  guards true (trace w) <> None ->
  (elapsed s w < D + (21 # 20))%Q ->
  (D - elapsed s w <= inject_Z (Z.of_nat n))%Q ->
  exists w',
    while_ (S n)
      (t <- time_time ;; ret (Py.lt (t - s) D))
      (test_pwm_iteration h s D) w = (Ok tt, w')
    /\ pending w' = None
    /\ guards true (trace w') <> None
    /\ (D <= elapsed s w')%Q
    /\ (elapsed s w' < D + (21 # 20))%Q.
Proof.
  revert w. induction n as [| n IH]; intros w Hq Hg Ht Hf;
    cbn [while_]; unfold bind at 1; unfold bind at 1; quiet; cbn [ret];
    cbv beta iota;
    (assert (Hg1 : guards true (trace (emit (EvTime (now w)) w)) <> None)
      by (world_simpl; rewrite guards_snoc;
          destruct (guards true (trace w)) as [[f z] |];
          [cbn; discriminate | congruence]));
    destruct (Py.lt (now w - s) D) eqn:C.
  - apply py_lt_true in C. unfold elapsed in Hf.
    change (inject_Z (Z.of_nat 0)) with 0%Q in Hf. lra.
  - apply py_lt_false in C. eexists. split; [reflexivity |].
    world_simpl. unfold elapsed in *. world_simpl. repeat split; assumption.
  - apply py_lt_true in C.
    destruct (iteration_quiet (emit (EvTime (now w)) w))
      as (c & w1 & E1 & Hq1 & Hg1' & Hc); try assumption.
    unfold bind at 1. rewrite E1. cbv beta iota.
    destruct c.
    + destruct Hc as [Hn Hb]. revert Hn. world_simpl. intros Hn.
      apply IH; try assumption.
      unfold elapsed in *.
      rewrite Nat2Z.inj_succ in Hf. unfold Z.succ in Hf.
      rewrite inject_Z_plus in Hf. change (inject_Z 1) with 1%Q in Hf. lra.
    + destruct Hc as [Hl Hb]. cbn [ret]. exists w1. split; [reflexivity |].
      repeat split; try assumption. lra.
  - apply py_lt_false in C. eexists. split; [reflexivity |].
    world_simpl. unfold elapsed in *. world_simpl. repeat split; assumption.
Qed.

End PwmTiming.

Lemma test_pwm_setup_quiet (pin : Z) (D t0 : Q) :
  test_pwm_setup pin D (initial_world t0 None)
  = (Ok (pwm0 pin, t0),
     {| now := t0; pending := None; next_id := 1;
        trace := [EvPwmInit (pwm0 pin) 1000; EvPrint (MsgPwmStart D);
                  EvTime t0] |}).
Proof. reflexivity. Qed.

Lemma test_led_setup_quiet (pin : Z) (D t0 : Q) :
  test_led_setup pin D (initial_world t0 None)
  = (Ok (pin, t0),
     {| now := t0; pending := None; next_id := 0;
        trace := [EvPinOut pin; EvPrint (MsgLedStart pin D); EvTime t0] |}).
Proof. reflexivity. Qed.

(** X20: With enough fuel and no interrupt [test_pwm] returns; its loop does
    not end before the budget [duration] is spent and ends less than
    1.05 s after it; every wait but the stop hold that closes a pass is
    preceded by a reading of the clock; the last thing it does is write
    duty 0. *)
Theorem test_pwm_budget (pin : Z) (D t0 : Q) (n : nat) :
  (0 <= D)%Q ->
  (D <= inject_Z (Z.of_nat n))%Q ->
  outcome (run (test_pwm (S n) pin D) t0 None) = Ok tt
  /\ (D <= clock (run (test_pwm (S n) pin D) t0 None) - t0)%Q
  /\ (clock (run (test_pwm (S n) pin D) t0 None) - t0 < D + (21 # 20))%Q
  /\ every_wait_guarded_but_stop (events (run (test_pwm (S n) pin D) t0 None))
  /\ exists tr,
       events (run (test_pwm (S n) pin D) t0 None)
       = tr ++ [EvDutyU16 (pwm0 pin) 0].
Proof.
  intros HD Hn.
  destruct (pwm_loop_quiet (pwm0 pin) t0 D n
              {| now := t0; pending := None; next_id := 1;
                 trace := [EvPwmInit (pwm0 pin) 1000;
                           EvPrint (MsgPwmStart D); EvTime t0] |})
    as (w' & E & Hq & Hg & Hlo & Hhi).
  { reflexivity. }
  { cbn. discriminate. }
  { unfold elapsed. world_simpl. lra. }
  { unfold elapsed. world_simpl. lra. }
  assert (R : run (test_pwm (S n) pin D) t0 None
              = (Ok tt, emit (EvDutyU16 (pwm0 pin) 0) w')).
  { unfold run, test_pwm. unfold bind at 1.
    rewrite test_pwm_setup_quiet. cbv beta iota.
    unfold try_except_finally, test_pwm_body.
    rewrite E. cbv beta iota. unfold test_pwm_final. cbn [fst].
    now rewrite duty_u16_quiet by assumption. }
  rewrite R.
  unfold outcome, clock, events, every_wait_guarded_but_stop, elapsed in *.
  world_simpl.
  split; [reflexivity |]. split; [assumption |]. split; [assumption |].
  split.
  - rewrite guards_snoc.
    destruct (guards true (trace w')) as [[f z] |]; [cbn; discriminate | congruence].
  - eexists. reflexivity.
Qed.

Lemma test_pwm_budget_witness :
  (0 <= 499 # 100)%Q /\ (499 # 100 <= inject_Z (Z.of_nat 5))%Q
  /\ outcome (run (test_pwm 6 2 (499 # 100)) 0 None) = Ok tt.
Proof.
  assert (A : (0 <= 499 # 100)%Q) by (unfold Qle; cbn; lia).
  assert (B : (499 # 100 <= inject_Z (Z.of_nat 5))%Q) by (unfold Qle; cbn; lia).
  split; [exact A |]. split; [exact B |].
  exact (proj1 (test_pwm_budget 2 (499 # 100) 0 5 A B)).
Defined.

(* ----------------------------------------------------------------- *)
(** ** The timed loop of [test_led] *)

Lemma while_S (fuel : nat) (cond : M bool) (body : M loop_ctl) :
  while_ (S fuel) cond body
  = (b <- cond ;;
     if b then
       c <- body ;;
       match c with
       | Break => ret tt
       | Continue => while_ fuel cond body
       end
     else ret tt).
Proof. reflexivity. Qed.

Section LedTiming.

Variables (led : Z) (delay_on delay_off s D : Q).

Lemma led_pass_quiet (w : world) :
  pending w = None ->
  guards false (trace w) = Some (true, false) ->
  (elapsed s w < D)%Q ->
  exists c w',
    led_pass led delay_on delay_off s D w = (Ok c, w')
    /\ pending w' = None
    /\ guards false (trace w') <> None
    /\ match c with
       | Break => (D <= elapsed s w' /\ elapsed s w' < D + delay_on)%Q
       | Continue =>
           (now w' == now w + delay_on + delay_off
            /\ elapsed s w' < D + delay_off)%Q
       end.
Proof.
  intros Hq G Ht. unfold led_pass.
  unfold bind at 1. quiet. unfold bind at 1. quiet.
  unfold bind at 1. quiet. world_simpl.
  destruct (Py.ge (now w + delay_on - s) D) eqn:C1.
  - apply py_ge_true in C1. exists Break. eexists. split; [reflexivity |].
    world_simpl. unfold elapsed in *. world_simpl.
    repeat split; try assumption; try lra.
    rewrite !guards_snoc, G. cbn. discriminate.
  - apply py_ge_false in C1.
    unfold bind at 1. quiet. unfold bind at 1. quiet. cbn [ret].
    exists Continue. eexists. split; [reflexivity |].
    world_simpl. unfold elapsed in *. world_simpl.
    repeat split; try assumption; try lra.
    rewrite !guards_snoc, G. cbn. discriminate.
Qed.

Lemma led_loop_quiet (n : nat) (w : world) :
  pending w = None ->
  guards false (trace w) <> None ->
  (elapsed s w < D + Qmax delay_on delay_off)%Q ->
  (D - elapsed s w <= inject_Z (Z.of_nat n) * (delay_on + delay_off))%Q ->
  exists w',
    test_led_body (S n) delay_on delay_off D (led, s) w = (Ok tt, w')
    /\ pending w' = None
    /\ guards false (trace w') <> None
    /\ (D <= elapsed s w')%Q
    /\ (elapsed s w' < D + Qmax delay_on delay_off)%Q.
Proof.
  pose proof (Q.le_max_l delay_on delay_off) as Ml.
  pose proof (Q.le_max_r delay_on delay_off) as Mr.
  unfold test_led_body. fold (led_pass led delay_on delay_off s D).
  revert w. induction n as [| n IH]; intros w Hq Hg Ht Hf;
    rewrite while_S; unfold bind at 1; unfold bind at 1; quiet; cbn [ret];
    cbv beta iota;
    (assert (G1 : guards false (trace w ++ [EvTime (now w)])
                  = Some (true, false))
      by (rewrite guards_snoc;
          destruct (guards false (trace w)) as [[f z] |];
          [reflexivity | congruence]));
    destruct (Py.lt (now w - s) D) eqn:C.
  - apply py_lt_true in C. unfold elapsed in Hf.
    change (inject_Z (Z.of_nat 0)) with 0%Q in Hf. lra.
  - apply py_lt_false in C. eexists. split; [reflexivity |].
    world_simpl. unfold elapsed in *. world_simpl.
    repeat split; try assumption. rewrite G1. discriminate.
  - apply py_lt_true in C.
    destruct (led_pass_quiet (emit (EvTime (now w)) w))
      as (c & w1 & E1 & Hq1 & Hg1 & Hc); try assumption.
    unfold bind at 1. rewrite E1. cbv beta iota.
    destruct c.
    + destruct Hc as [Hn Hb]. revert Hn. world_simpl. intros Hn.
      apply IH; try assumption.
      * lra.
      * unfold elapsed in *.
        rewrite Nat2Z.inj_succ in Hf. unfold Z.succ in Hf.
        rewrite inject_Z_plus in Hf. change (inject_Z 1) with 1%Q in Hf.
        rewrite Hn. lra.
    + destruct Hc as [Hl Hb]. cbn [ret]. exists w1. split; [reflexivity |].
      repeat split; try assumption. lra.
  - apply py_lt_false in C. eexists. split; [reflexivity |].
    world_simpl. unfold elapsed in *. world_simpl.
    repeat split; try assumption. rewrite G1. discriminate.
Qed.

End LedTiming.

(** X19: With enough fuel and no interrupt [test_led] returns; its loop does
    not end before the budget is spent, a reading of the clock precedes
    every wait, the budget is exceeded by less than the longer of the
    two delays, and the last thing it does is drive the pin low. *)
Theorem test_led_budget (pin : Z) (delay_on delay_off D t0 : Q) (n : nat) :
  (0 <= delay_on)%Q ->
  (0 <= delay_off)%Q ->
  (0 < delay_on + delay_off)%Q ->
  (0 <= D)%Q ->
  (D <= inject_Z (Z.of_nat n) * (delay_on + delay_off))%Q ->
  outcome (run (test_led (S n) pin delay_on delay_off D) t0 None) = Ok tt
  /\ (D <= clock (run (test_led (S n) pin delay_on delay_off D) t0 None) - t0)%Q
  /\ (clock (run (test_led (S n) pin delay_on delay_off D) t0 None) - t0
      < D + Qmax delay_on delay_off)%Q
  /\ every_wait_guarded
       (events (run (test_led (S n) pin delay_on delay_off D) t0 None))
  /\ exists tr,
       events (run (test_led (S n) pin delay_on delay_off D) t0 None)
       = tr ++ [EvValue pin 0].
Proof.
  intros Hon Hoff Hpos HD Hn.
  pose proof (Q.le_max_l delay_on delay_off) as Ml.
  pose proof (Q.le_max_r delay_on delay_off) as Mr.
  destruct (led_loop_quiet pin delay_on delay_off t0 D n
              {| now := t0; pending := None; next_id := 0;
                 trace := [EvPinOut pin; EvPrint (MsgLedStart pin D);
                           EvTime t0] |})
    as (w' & E & Hq & Hg & Hlo & Hhi).
  { reflexivity. }
  { cbn. discriminate. }
  { unfold elapsed. world_simpl. lra. }
  { unfold elapsed. world_simpl. lra. }
  assert (R : run (test_led (S n) pin delay_on delay_off D) t0 None
              = (Ok tt, emit (EvValue pin 0) w')).
  { unfold run, test_led. unfold bind at 1.
    rewrite test_led_setup_quiet. cbv beta iota.
    unfold try_except_finally.
    rewrite E. cbv beta iota. unfold test_led_final. cbn [fst].
    now rewrite pin_value_quiet by assumption. }
  rewrite R.
  unfold outcome, clock, events, every_wait_guarded, elapsed in *.
  world_simpl.
  split; [reflexivity |]. split; [assumption |]. split; [assumption |].
  split.
  - rewrite guards_snoc.
    destruct (guards false (trace w')) as [[f z] |]; [cbn; discriminate | congruence].
  - eexists. reflexivity.
Qed.

Lemma test_led_budget_witness :
  (0 <= 2)%Q /\ (0 <= 1)%Q /\ (0 < 2 + 1)%Q /\ (0 <= 10)%Q
  /\ (10 <= inject_Z (Z.of_nat 4) * (2 + 1))%Q
  /\ outcome (run (test_led 5 2 2 1 10) 0 None) = Ok tt.
Proof.
  assert (A : (0 <= 2)%Q) by (unfold Qle; cbn; lia).
  assert (B : (0 <= 1)%Q) by (unfold Qle; cbn; lia).
  assert (C : (0 < 2 + 1)%Q) by (unfold Qlt; cbn; lia).
  assert (E : (0 <= 10)%Q) by (unfold Qle; cbn; lia).
  assert (F : (10 <= inject_Z (Z.of_nat 4) * (2 + 1))%Q)
    by (unfold Qle; cbn; lia).
  repeat (split; [assumption |]).
  exact (proj1 (test_led_budget 2 2 1 10 0 4 A B C E F)).
Defined.

(* ----------------------------------------------------------------- *)
(** ** A complete pass of the [test_pwm] loop *)

Lemma range_up : Py.range 0 65535 1000
                 = map (fun k => 1000 * Z.of_nat k) (seq 0 66).
Proof. reflexivity. Qed.

Lemma range_down : Py.range 65535 0 (-1000)
                   = map (fun k => 65535 - 1000 * Z.of_nat k) (seq 0 66).
Proof. reflexivity. Qed.

Lemma shape_snoc (tr : list event) (e : event) :
  shape (tr ++ [e]) = shape tr ++ [shape_of e].
Proof. unfold shape. now rewrite map_app. Qed.

Lemma steps_nonneg (n : nat) : (0 <= inject_Z (Z.of_nat n))%Q.
Proof.
  change 0%Q with (inject_Z 0). rewrite <- Zle_Qle. lia.
Qed.

Lemma steps_succ (n : nat) :
  (inject_Z (Z.of_nat (S n)) == inject_Z (Z.of_nat n) + 1)%Q.
Proof.
  rewrite Nat2Z.inj_succ. unfold Z.succ. rewrite inject_Z_plus. reflexivity.
Qed.

Section PwmPass.

Variables (h : PWM) (s D : Q).

(** While the budget lasts a ramp writes every value of its range, one
    every 50 ms. *)
Lemma ramp_full (xs : list Z) (w : world) :
  pending w = None ->
  (elapsed s w + inject_Z (Z.of_nat (length xs)) * (1 # 20) < D + (1 # 20))%Q ->
  exists w',
    for_ xs (ramp_step h s D) w = (Ok tt, w')
    /\ pending w' = None
    /\ shape (trace w') = shape (trace w) ++ ramp_events h xs
    /\ (now w' == now w + inject_Z (Z.of_nat (length xs)) * (1 # 20))%Q.
Proof.
  revert w. induction xs as [| x xs IH]; intros w Hq Ht.
  - exists w. cbn [for_ ret length]. repeat split; try assumption.
    + unfold ramp_events. cbn. now rewrite app_nil_r.
    + change (inject_Z (Z.of_nat 0)) with 0%Q. lra.
  - pose proof (steps_nonneg (length xs)) as Hl.
    cbn [length] in Ht. rewrite steps_succ in Ht.
    cbn [for_]. unfold bind at 1. unfold ramp_step. unfold bind at 1.
    quiet.
    destruct (Py.ge (now w - s) D) eqn:C.
    { apply py_ge_true in C. unfold elapsed in Ht. lra. }
    unfold bind at 1. quiet. unfold bind at 1. quiet. cbn [ret].
    match goal with |- context [for_ xs _ ?w1] =>
      destruct (IH w1) as (w' & E & Hq' & Hs' & Hn')
    end.
    + world_simpl. assumption.
    + unfold elapsed in *. world_simpl. lra.
    + exists w'. split; [exact E |]. split; [assumption |]. split.
      * rewrite Hs'. world_simpl. rewrite !shape_snoc.
        unfold ramp_events. cbn [flat_map shape_of].
        rewrite <- !app_assoc. reflexivity.
      * rewrite Hn'. world_simpl. cbn [length]. rewrite steps_succ. lra.
Qed.

Lemma pass_full (w : world) :
  pending w = None ->
  (elapsed s w + (151 # 20) < D)%Q ->
  exists w',
    test_pwm_iteration h s D w = (Ok Continue, w')
    /\ pending w' = None
    /\ shape (trace w') = shape (trace w) ++ full_iteration h
    /\ (now w' == now w + (43 # 5))%Q.
Proof.
  intros Hq Ht.
  unfold test_pwm_iteration. unfold bind at 1. quiet.
  unfold bind at 1.
  match goal with |- context [for_ ?xs _ ?w1] =>
    destruct (ramp_full xs w1) as (w2 & E2 & Hq2 & Hs2 & Hn2)
  end.
  { world_simpl. assumption. }
  { change (length (Py.range 0 65535 1000)) with 66%nat.
    change (inject_Z (Z.of_nat 66)) with 66%Q.
    unfold elapsed in *. world_simpl. lra. }
  rewrite E2. cbv beta iota.
  change (length (Py.range 0 65535 1000)) with 66%nat in Hn2.
  change (inject_Z (Z.of_nat 66)) with 66%Q in Hn2.
  revert Hn2 Hs2. world_simpl. intros Hn2 Hs2.
  unfold elapsed in Ht.
  unfold bind at 1. quiet.
  destruct (Py.ge (now w2 - s) D) eqn:C1.
  { apply py_ge_true in C1. rewrite Hn2 in C1. lra. }
  unfold bind at 1. quiet. unfold bind at 1. quiet.
  unfold bind at 1. quiet. unfold bind at 1. quiet.
  world_simpl.
  destruct (Py.ge (now w2 + 1 - s) D) eqn:C2.
  { apply py_ge_true in C2. rewrite Hn2 in C2. lra. }
  unfold bind at 1. quiet. unfold bind at 1.
  match goal with |- context [for_ ?xs _ ?w3] =>
    destruct (ramp_full xs w3) as (w4 & E4 & Hq4 & Hs4 & Hn4)
  end.
  { world_simpl. assumption. }
  { change (length (Py.range 65535 0 (-1000))) with 66%nat.
    change (inject_Z (Z.of_nat 66)) with 66%Q.
    unfold elapsed in *. world_simpl. rewrite Hn2. lra. }
  rewrite E4. cbv beta iota.
  change (length (Py.range 65535 0 (-1000))) with 66%nat in Hn4.
  change (inject_Z (Z.of_nat 66)) with 66%Q in Hn4.
  revert Hn4 Hs4. world_simpl. intros Hn4 Hs4.
  unfold bind at 1. quiet. unfold bind at 1. quiet. cbn [ret].
  eexists. split; [reflexivity |]. world_simpl.
  split; [assumption |]. split.
  - rewrite !shape_snoc, Hs4, !shape_snoc, Hs2, !shape_snoc.
    rewrite range_up, range_down. unfold full_iteration.
    cbn [shape_of]. rewrite <- !app_assoc. reflexivity.
  - rewrite Hn4, Hn2. lra.
Qed.

End PwmPass.

Lemma guard_step_shape (b : bool) (st : option (bool * bool)) (e : event) :
  guard_step b st (shape_of e) = guard_step b st e.
Proof. destruct st as [[f z] |]; destruct e; reflexivity. Qed.

Lemma guards_from_shape (b : bool) (tr : list event) (st : option (bool * bool)) :
  fold_left (guard_step b) (shape tr) st = fold_left (guard_step b) tr st.
Proof.
  revert st. induction tr as [| e tr IH]; intros st; [reflexivity |].
  cbn. rewrite guard_step_shape. apply IH.
Qed.

Lemma guards_stuck (b : bool) (tr : list event) :
  fold_left (guard_step b) tr None = None.
Proof. induction tr as [| e tr IH]; [reflexivity | exact IH]. Qed.

Lemma full_iteration_unguarded (h : PWM) (st : option (bool * bool)) :
  fold_left (guard_step false) (full_iteration h) st = None.
Proof.
  destruct st as [[[|] [|]] |]; vm_compute; reflexivity.
Qed.

(** X22: A pass of the [test_pwm] loop that starts with more than 7.55 s of
    budget left is complete: it ramps up through the multiples of 1000
    below 65535, holds 65535 for 1 s, ramps down from 65535 in steps of
    1000 while above 0, writes 0 and holds 1 s; it lasts 8.6 s.  The
    stop hold follows the last ramp wait with no reading of the clock in
    between.  The ramps themselves never write 65535 going up nor 0
    going down. *)
Theorem test_pwm_complete_pass (h : PWM) (s D : Q) (w : world) :
  pending w = None ->
  (elapsed s w + (151 # 20) < D)%Q ->
  exists w',
    test_pwm_iteration h s D w = (Ok Continue, w')
    /\ shape (trace w') = shape (trace w) ++ full_iteration h
    /\ (now w' == now w + (43 # 5))%Q
    /\ ~ every_wait_guarded (trace w')
    /\ ~ In 65535 (Py.range 0 65535 1000)
    /\ ~ In 0 (Py.range 65535 0 (-1000)).
Proof.
  intros Hq Ht.
  destruct (pass_full h s D w Hq Ht) as (w' & E & _ & Hs & Hn).
  exists w'. split; [exact E |]. split; [exact Hs |]. split; [exact Hn |].
  split; [| split].
  - unfold every_wait_guarded, guards. intros G. apply G.
    rewrite <- guards_from_shape, Hs, fold_left_app.
    apply full_iteration_unguarded.
  - intros I. apply in_map_iff in I. destruct I as (k & E1 & _). lia.
  - intros I. apply in_map_iff in I. destruct I as (k & E1 & I).
    apply in_seq in I. cbn in I. lia.
Qed.

Lemma test_pwm_complete_pass_witness :
  exists w',
    test_pwm_iteration (pwm0 2) 0 10 (initial_world 0 None)
    = (Ok Continue, w').
Proof.
  assert (A : pending (initial_world 0 None) = None) by reflexivity.
  assert (B : (elapsed 0 (initial_world 0 None) + (151 # 20) < 10)%Q)
    by (unfold Qlt; cbn; lia).
  destruct (test_pwm_complete_pass (pwm0 2) 0 10 (initial_world 0 None) A B)
    as (w' & E & _).
  exists w'. exact E.
Defined.

(* ----------------------------------------------------------------- *)
(** ** What a computation can add to the trace *)

Section EmitsOnly.

Variable P : event -> Prop.
Hypothesis interrupt_allowed : P EvKeyboardInterrupt.

Lemma emits_ret {A} (a : A) : emits_only P (ret a).
Proof. intros w H. exact H. Qed.

Lemma emits_bind {A B} (m : M A) (k : A -> M B) :
  emits_only P m -> (forall a, emits_only P (k a)) -> emits_only P (bind m k).
Proof.
  intros Hm Hk w H. unfold bind. specialize (Hm w H).
  destruct (m w) as [[a | e |] w1]; cbn [snd] in *; try assumption.
  now apply Hk.
Qed.

Lemma emits_step {A} (e : world -> event) (f : world -> A)
    (g : world -> world) :
  (forall w, P (e w)) ->
  (forall w, trace (g w) = trace w) ->
  emits_only P (prim (fun w => (f w, emit (e w) (g w)))).
Proof.
  intros He Hg w H. unfold prim.
  destruct (pending w) as [[| k] |]; cbn [snd emit trace with_pending].
  - apply Forall_app. split; [assumption | repeat constructor; assumption].
  - rewrite Hg. cbn [trace with_pending]. apply Forall_app.
    split; [assumption | repeat constructor; apply He].
  - rewrite Hg. apply Forall_app.
    split; [assumption | repeat constructor; apply He].
Qed.

Lemma emits_print (m : message) : P (EvPrint m) -> emits_only P (print m).
Proof. intros H. apply (emits_step (fun _ => EvPrint m) (fun _ => tt) (fun w => w)); auto. Qed.

Lemma emits_time : (forall t, P (EvTime t)) -> emits_only P time_time.
Proof. intros H. apply (emits_step (fun w => EvTime (now w)) now (fun w => w)); auto. Qed.

Lemma emits_sleep (d : Q) : P (EvSleep d) -> emits_only P (time_sleep d).
Proof. intros H. apply (emits_step (fun _ => EvSleep d) (fun _ => tt) (advance d)); auto. Qed.

Lemma emits_pin_out (pin : Z) : P (EvPinOut pin) -> emits_only P (Pin_OUT pin).
Proof. intros H. apply (emits_step (fun _ => EvPinOut pin) (fun _ => pin) (fun w => w)); auto. Qed.

Lemma emits_value (pin v : Z) : P (EvValue pin v) -> emits_only P (pin_value pin v).
Proof. intros H. apply (emits_step (fun _ => EvValue pin v) (fun _ => tt) (fun w => w)); auto. Qed.

Lemma emits_pwm_init (pin freq : Z) :
  (forall id, P (EvPwmInit {| pwm_id := id; pwm_pin := pin |} freq)) ->
  emits_only P (PWM_init pin freq).
Proof.
  intros H.
  apply (emits_step
           (fun w => EvPwmInit {| pwm_id := next_id w; pwm_pin := pin |} freq)
           (fun w => {| pwm_id := next_id w; pwm_pin := pin |}) fresh_id); auto.
Qed.

Lemma emits_duty (h : PWM) (v : Z) : P (EvDutyU16 h v) -> emits_only P (duty_u16 h v).
Proof. intros H. apply (emits_step (fun _ => EvDutyU16 h v) (fun _ => tt) (fun w => w)); auto. Qed.

Lemma emits_deinit (h : PWM) : P (EvDeinit h) -> emits_only P (deinit h).
Proof. intros H. apply (emits_step (fun _ => EvDeinit h) (fun _ => tt) (fun w => w)); auto. Qed.

Lemma emits_for {A} (xs : list A) (body : A -> M loop_ctl) :
  (forall x, In x xs -> emits_only P (body x)) -> emits_only P (for_ xs body).
Proof.
  induction xs as [| x xs IH]; intros H; cbn [for_].
  - apply emits_ret.
  - apply emits_bind; [apply H; now left |].
    intros [|]; [| apply emits_ret]. apply IH. intros y Hy. apply H. now right.
Qed.

Lemma emits_while (fuel : nat) (cond : M bool) (body : M loop_ctl) :
  emits_only P cond -> emits_only P body ->
  emits_only P (while_ fuel cond body).
Proof.
  intros Hc Hb. induction fuel as [| fuel IH]; cbn [while_].
  - intros w H. exact H.
  - apply emits_bind; [assumption |]. intros [|]; [| apply emits_ret].
    apply emits_bind; [assumption |]. intros [|]; [assumption | apply emits_ret].
Qed.

Lemma emits_try (body handler final : M unit) :
  emits_only P body -> emits_only P handler -> emits_only P final ->
  emits_only P (try_except_finally body handler final).
Proof.
  intros Hb Hh Hf w H. unfold try_except_finally.
  specialize (Hb w H).
  destruct (body w) as [[[] | [] |] w1]; cbn [snd] in *.
  - now apply Hf.
  - specialize (Hh w1 Hb).
    destruct (handler w1) as [[[] | e |] w2]; cbn [snd] in *.
    + now apply Hf.
    + specialize (Hf w2 Hh).
      destruct (final w2) as [[[] | e' |] w3]; cbn [snd] in *; assumption.
    + assumption.
  - assumption.
Qed.

End EmitsOnly.

Lemma emits_bind_post {A B} (P : event -> Prop) (R : A -> Prop)
    (m : M A) (k : A -> M B) :
  returns R m -> emits_only P m -> (forall a, R a -> emits_only P (k a)) ->
  emits_only P (bind m k).
Proof.
  intros Hr Hm Hk w H. unfold bind. specialize (Hm w H). specialize (Hr w).
  destruct (m w) as [[a | e |] w1]; cbn [fst snd] in *; try assumption.
  now apply Hk.
Qed.

Lemma returns_prim {A} (R : A -> Prop) (act : world -> A * world) :
  (forall w, R (fst (act w))) -> returns R (prim act).
Proof.
  intros H w. unfold prim. destruct (pending w) as [[| k] |]; cbn [fst].
  - exact I.
  - specialize (H (with_pending (Some k) w)).
    destruct (act (with_pending (Some k) w)). exact H.
  - specialize (H w). destruct (act w). exact H.
Qed.

Lemma returns_ret {A} (R : A -> Prop) (a : A) : R a -> returns R (ret a).
Proof. intros H w. exact H. Qed.

Lemma returns_bind {A B} (R : B -> Prop) (m : M A) (k : A -> M B) :
  (forall a, returns R (k a)) -> returns R (bind m k).
Proof.
  intros H w. unfold bind.
  destruct (m w) as [[a | e |] w1]; cbn [fst]; try exact I. apply H.
Qed.

Lemma returns_bind_post {A B} (Q : A -> Prop) (R : B -> Prop)
    (m : M A) (k : A -> M B) :
  returns Q m -> (forall a, Q a -> returns R (k a)) -> returns R (bind m k).
Proof.
  intros Hq H w. unfold bind. specialize (Hq w).
  destruct (m w) as [[a | e |] w1]; cbn [fst] in *; try exact I. now apply H.
Qed.

Lemma PWM_init_returns (pin freq : Z) :
  returns (fun h => pwm_pin h = pin) (PWM_init pin freq).
Proof. apply returns_prim. reflexivity. Qed.

Lemma Pin_OUT_returns (pin : Z) : returns (fun p => p = pin) (Pin_OUT pin).
Proof. apply returns_prim. reflexivity. Qed.

Lemma range_up_bounds (x : Z) :
  In x (Py.range 0 65535 1000) -> 0 <= x <= 65000.
Proof.
  intros I. apply in_map_iff in I. destruct I as (k & E & I).
  apply in_seq in I. cbn in I. lia.
Qed.

Lemma range_down_bounds (x : Z) :
  In x (Py.range 65535 0 (-1000)) -> 535 <= x <= 65535.
Proof.
  intros I. apply in_map_iff in I. destruct I as (k & E & I).
  apply in_seq in I. cbn in I. lia.
Qed.

(** Proof search over the structure of an entry point. *)
Ltac emits :=
  repeat
    (intros;
     lazymatch goal with
     | |- emits_only _ (if ?c then _ else _) => destruct c
     | |- emits_only _ (let (_, _) := ?p in _) => destruct p
     | |- emits_only _ (match ?c with Continue => _ | Break => _ end) =>
         destruct c
     | |- emits_only _ _ =>
         first
           [ apply emits_ret
           | apply emits_print
           | apply emits_time
           | apply emits_sleep
           | apply emits_value
           | apply emits_duty
           | apply emits_deinit
           | apply emits_pin_out
           | apply emits_pwm_init
           | apply emits_try
           | apply emits_while
           | apply emits_for
           | apply emits_bind ]
     end).

Section DutyRange.

Lemma ramp_step_in_u16 (h : PWM) (s D : Q) (x : Z) :
  0 <= x <= 65535 -> emits_only duty_in_u16 (ramp_step h s D x).
Proof. intros H. unfold ramp_step. emits; cbn; auto. Qed.

Lemma test_pwm_in_u16 (fuel : nat) (pin : Z) (D : Q) :
  emits_only duty_in_u16 (test_pwm fuel pin D).
Proof.
  unfold test_pwm, test_pwm_setup, test_pwm_body, test_pwm_handler,
    test_pwm_final, test_pwm_iteration.
  emits; cbn; auto; try lia;
    match goal with
    | I : In _ (Py.range 0 _ _) |- _ => apply range_up_bounds in I
    | I : In _ (Py.range 65535 _ _) |- _ => apply range_down_bounds in I
    end; lia.
Qed.

Variable speed : Z.
Hypothesis percent : 0 <= speed <= 100.

Lemma duty_cycle_in_u16 : 0 <= duty_cycle speed <= 65535.
Proof. pose proof (duty_cycle_nonneg_bounds speed ltac:(lia)). lia. Qed.

Lemma run_one_cycle_in_u16 (r l : Z) (duration : Q) :
  emits_only duty_in_u16 (run_one_cycle r l speed duration).
Proof.
  pose proof duty_cycle_in_u16.
  unfold run_one_cycle, run_one_cycle_setup, run_one_cycle_body,
    run_one_cycle_handler, run_one_cycle_final.
  emits; cbn; auto; lia.
Qed.

Lemma extend_only_in_u16 (duration : Q) :
  emits_only duty_in_u16 (extend_only duration speed).
Proof.
  pose proof duty_cycle_in_u16.
  unfold extend_only, extend_only_setup, extend_only_body,
    extend_only_handler, extend_only_final.
  emits; cbn; auto; lia.
Qed.

Lemma retract_only_in_u16 (duration : Q) :
  emits_only duty_in_u16 (retract_only duration speed).
Proof.
  pose proof duty_cycle_in_u16.
  unfold retract_only, retract_only_setup, retract_only_body,
    retract_only_handler, retract_only_final.
  emits; cbn; auto; lia.
Qed.

End DutyRange.

(** X18: Whatever the interrupt and the fuel, [test_pwm] passes only values
    of [0, 65535] to [duty_u16]; so do the three actuator functions
    when the speed is a percentage. *)
Theorem duty_writes_fit_u16 (speed : Z) (duration D t0 : Q) (r l pin : Z)
    (fuel : nat) (i : option nat) :
  Forall duty_in_u16 (events (run (test_pwm fuel pin D) t0 i))
  /\ (0 <= speed <= 100 ->
      Forall duty_in_u16 (events (run (run_one_cycle r l speed duration) t0 i))
      /\ Forall duty_in_u16 (events (run (extend_only duration speed) t0 i))
      /\ Forall duty_in_u16 (events (run (retract_only duration speed) t0 i))).
Proof.
  split; [apply test_pwm_in_u16; constructor |].
  intros H. split; [| split].
  - apply run_one_cycle_in_u16; [assumption | constructor].
  - apply extend_only_in_u16; [assumption | constructor].
  - apply retract_only_in_u16; [assumption | constructor].
Qed.

Lemma duty_writes_fit_u16_witness :
  0 <= 50 <= 100
  /\ Forall duty_in_u16 (events (run (extend_only 1 50) 0 (Some 3%nat))).
Proof.
  split; [lia |].
  apply (duty_writes_fit_u16 50 1 1 0 26 27 2 O (Some 3%nat)). lia.
Defined.

(* ----------------------------------------------------------------- *)
(** ** Pins an entry point touches *)

Ltac rets :=
  repeat lazymatch goal with
         | |- returns _ (ret _) => apply returns_ret
         | |- returns _ (bind (PWM_init _ _) _) =>
             eapply returns_bind_post; [apply PWM_init_returns | intros ? ?]
         | |- returns _ (bind (Pin_OUT _) _) =>
             eapply returns_bind_post; [apply Pin_OUT_returns | intros ? ?]
         | |- returns _ (bind _ _) => apply returns_bind; intros ?
         end.

Ltac pins :=
  cbn [on_pins In pwm_pin fst snd] in *; subst;
  repeat match goal with
         | h : PWM |- _ => destruct h; cbn [pwm_pin] in *; subst
         end;
  cbn [on_pins In pwm_pin fst snd]; auto.

Lemma test_led_on_pin (fuel : nat) (pin : Z) (on off D : Q) :
  emits_only (on_pins [pin]) (test_led fuel pin on off D).
Proof.
  unfold test_led.
  apply emits_bind_post with (R := fun env => fst env = pin).
  - unfold test_led_setup. rets. cbn. assumption.
  - unfold test_led_setup. emits; pins.
  - intros [led s] E. cbn in E. subst led.
    unfold test_led_body, test_led_handler, test_led_final. emits; pins.
Qed.

Lemma test_pwm_on_pin (fuel : nat) (pin : Z) (D : Q) :
  emits_only (on_pins [pin]) (test_pwm fuel pin D).
Proof.
  unfold test_pwm.
  apply emits_bind_post with (R := fun env => pwm_pin (fst env) = pin).
  - unfold test_pwm_setup. rets. cbn. assumption.
  - unfold test_pwm_setup. emits; pins.
  - intros [h s] E. cbn in E.
    unfold test_pwm_body, test_pwm_handler, test_pwm_final,
      test_pwm_iteration. emits; try (unfold ramp_step; emits); pins.
Qed.

Lemma run_one_cycle_on_pins (r l speed : Z) (duration : Q) :
  emits_only (on_pins [r; l]) (run_one_cycle r l speed duration).
Proof.
  unfold run_one_cycle.
  apply emits_bind_post
    with (R := fun env => pwm_pin (fst env) = r /\ pwm_pin (snd env) = l).
  - unfold run_one_cycle_setup. rets. cbn. split; assumption.
  - unfold run_one_cycle_setup. emits; pins.
  - intros [e1 e2] [E1 E2]. cbn in E1, E2.
    unfold run_one_cycle_body, run_one_cycle_handler, run_one_cycle_final.
    emits; pins.
Qed.

Lemma extend_only_on_pin (duration : Q) (speed : Z) :
  emits_only (on_pins [RPWM_PIN]) (extend_only duration speed).
Proof.
  unfold extend_only.
  apply emits_bind_post with (R := fun h => pwm_pin h = RPWM_PIN).
  - unfold extend_only_setup. rets. assumption.
  - unfold extend_only_setup. emits; pins.
  - intros h E.
    unfold extend_only_body, extend_only_handler, extend_only_final.
    emits; pins.
Qed.

Lemma retract_only_on_pins (duration : Q) (speed : Z) :
  emits_only (on_pins [RPWM_PIN; LPWM_PIN]) (retract_only duration speed).
Proof.
  unfold retract_only.
  apply emits_bind_post
    with (R := fun env => pwm_pin (fst env) = RPWM_PIN
                          /\ pwm_pin (snd env) = LPWM_PIN).
  - unfold retract_only_setup. rets. cbn. split; assumption.
  - unfold retract_only_setup. emits; pins.
  - intros [e1 e2] [E1 E2]. cbn in E1, E2.
    unfold retract_only_body, retract_only_handler, retract_only_final.
    emits; pins.
Qed.

(** X17: Frame: whatever the interrupt and the fuel, an entry point
    configures, writes and releases only its own pins.  In particular
    [extend_only] never touches the retract pin. *)
Theorem entry_points_stay_on_their_pins (fuel : nat) (pin r l speed : Z)
    (on off D duration t0 : Q) (i : option nat) :
  Forall (on_pins [pin]) (events (run (test_led fuel pin on off D) t0 i))
  /\ Forall (on_pins [pin]) (events (run (test_pwm fuel pin D) t0 i))
  /\ Forall (on_pins [r; l])
            (events (run (run_one_cycle r l speed duration) t0 i))
  /\ Forall (on_pins [RPWM_PIN]) (events (run (extend_only duration speed) t0 i))
  /\ Forall (on_pins [RPWM_PIN; LPWM_PIN])
            (events (run (retract_only duration speed) t0 i)).
Proof.
  repeat split.
  - apply test_led_on_pin. constructor.
  - apply test_pwm_on_pin. constructor.
  - apply run_one_cycle_on_pins. constructor.
  - apply extend_only_on_pin. constructor.
  - apply retract_only_on_pins. constructor.
Qed.

(* ----------------------------------------------------------------- *)
(** ** An interrupted run is a prefix of the quiet run *)

Lemma cuts_ret {A} (a : A) : cuts_cleanly (ret a).
Proof.
  intros w Hq. exists []. cbn [ret fst snd length].
  split; [now rewrite app_nil_r |]. split; [assumption |].
  split; [discriminate |].
  intros k. split; [intros H; inversion H |].
  intros _. now rewrite Nat.sub_0_r.
Qed.

Lemma cuts_step {A} (e : world -> event) (f : world -> A)
    (g : world -> world) :
  (forall w, trace (g w) = trace w) ->
  (forall w, pending (g w) = pending w) ->
  (forall p w, f (with_pending p w) = f w) ->
  (forall p w, e (with_pending p w) = e w) ->
  (forall p w, g (with_pending p w) = with_pending p (g w)) ->
  cuts_cleanly (prim (fun w => (f w, emit (e w) (g w)))).
Proof.
  intros Ht Hp Hf He Hg w Hq. exists [e w].
  rewrite prim_quiet by assumption. cbn [fst snd emit trace pending length].
  split; [now rewrite Ht |]. split; [now rewrite Hp |].
  split; [discriminate |].
  intros [| k]; (split; [intros Hk | intros Hk]); try (exfalso; cbn in Hk; lia).
  - unfold prim. cbn. repeat split.
  - unfold prim. cbn [pending with_pending].
    rewrite !Hf, !He, !Hg. cbn. rewrite Nat.sub_0_r. reflexivity.
Qed.

Lemma cuts_print (m : message) : cuts_cleanly (print m).
Proof.
  apply (cuts_step (fun _ => EvPrint m) (fun _ => tt) (fun w => w));
    reflexivity.
Qed.

Lemma cuts_time : cuts_cleanly time_time.
Proof.
  apply (cuts_step (fun w => EvTime (now w)) now (fun w => w)); reflexivity.
Qed.

Lemma cuts_sleep (d : Q) : cuts_cleanly (time_sleep d).
Proof.
  apply (cuts_step (fun _ => EvSleep d) (fun _ => tt) (advance d));
    reflexivity.
Qed.

Lemma cuts_value (pin v : Z) : cuts_cleanly (pin_value pin v).
Proof.
  apply (cuts_step (fun _ => EvValue pin v) (fun _ => tt) (fun w => w));
    reflexivity.
Qed.

Lemma cuts_duty (h : PWM) (v : Z) : cuts_cleanly (duty_u16 h v).
Proof.
  apply (cuts_step (fun _ => EvDutyU16 h v) (fun _ => tt) (fun w => w));
    reflexivity.
Qed.

Lemma cuts_bind {A B} (m : M A) (k : A -> M B) :
  cuts_cleanly m -> (forall a, cuts_cleanly (k a)) -> cuts_cleanly (bind m k).
Proof.
  intros Hm Hk w Hq.
  destruct (Hm w Hq) as (am & Tm & Pm & Rm & Cm).
  unfold bind.
  destruct (m w) as [[a | e |] w1] eqn:Em; cbn [fst snd] in *.
  - destruct (Hk a w1 Pm) as (ak & Tk & Pk & Rk & Ck).
    exists (am ++ ak).
    split; [rewrite Tk, Tm; now rewrite app_assoc |].
    split; [assumption |]. split; [assumption |].
    intros j. rewrite length_app. split; intros Hj.
    + destruct (Nat.lt_ge_cases j (length am)) as [L | L].
      * destruct (proj1 (Cm j) L) as (F & T & P).
        destruct (m (with_pending (Some j) w)) as [r' w'] eqn:Ej.
        cbn [fst snd] in *. subst r'. cbn [fst snd].
        split; [reflexivity |]. split; [| assumption].
        rewrite T, firstn_app.
        replace (j - length am)%nat with O by lia.
        cbn [firstn]. now rewrite app_nil_r.
      * rewrite (proj2 (Cm j) L).
        destruct (proj1 (Ck (j - length am)%nat) ltac:(lia)) as (F & T & P).
        split; [assumption |]. split; [| assumption].
        rewrite T, Tm, firstn_app.
        replace (firstn j am) with am by (symmetry; apply firstn_all2; lia).
        now rewrite <- !app_assoc.
    + rewrite (proj2 (Cm j) ltac:(lia)).
      rewrite (proj2 (Ck (j - length am)%nat) ltac:(lia)).
      f_equal. f_equal. f_equal. lia.
  - exfalso. now apply (Rm e).
  - exists am. split; [assumption |]. split; [assumption |].
    split; [discriminate |].
    intros j. split; intros Hj.
    + destruct (proj1 (Cm j) Hj) as (F & T & P).
      destruct (m (with_pending (Some j) w)) as [r' w'] eqn:Ej.
      cbn [fst snd] in *. subst r'. cbn [fst snd]. repeat split; assumption.
    + rewrite (proj2 (Cm j) Hj). reflexivity.
Qed.

Ltac cuts :=
  repeat
    (intros;
     lazymatch goal with
     | |- cuts_cleanly (if ?c then _ else _) => destruct c
     | |- cuts_cleanly (match ?c with Continue => _ | Break => _ end) =>
         destruct c
     | |- cuts_cleanly (ret _) => apply cuts_ret
     | |- cuts_cleanly (print _) => apply cuts_print
     | |- cuts_cleanly time_time => apply cuts_time
     | |- cuts_cleanly (time_sleep _) => apply cuts_sleep
     | |- cuts_cleanly (pin_value _ _) => apply cuts_value
     | |- cuts_cleanly (duty_u16 _ _) => apply cuts_duty
     | |- cuts_cleanly (bind _ _) => apply cuts_bind
     end).

Lemma cuts_for {A} (xs : list A) (body : A -> M loop_ctl) :
  (forall x, cuts_cleanly (body x)) -> cuts_cleanly (for_ xs body).
Proof.
  intros H. induction xs as [| x xs IH]; cbn [for_]; cuts; auto.
Qed.

Lemma cuts_while (fuel : nat) (cond : M bool) (body : M loop_ctl) :
  cuts_cleanly cond -> cuts_cleanly body ->
  cuts_cleanly (while_ fuel cond body).
Proof.
  intros Hc Hb. induction fuel as [| fuel IH]; cbn [while_].
  - intros w Hq. exists []. cbn [fst snd length].
    split; [now rewrite app_nil_r |]. split; [assumption |].
    split; [discriminate |].
    intros k. split; [intros H; inversion H |].
    intros _. now rewrite Nat.sub_0_r.
  - cuts; auto.
Qed.

Lemma test_led_body_cuts (fuel : nat) (on off D : Q) (env : Z * Q) :
  cuts_cleanly (test_led_body fuel on off D env).
Proof.
  destruct env as [led s]. unfold test_led_body.
  apply cuts_while; cuts.
Qed.

Lemma ramp_step_cuts (h : PWM) (s D : Q) (x : Z) :
  cuts_cleanly (ramp_step h s D x).
Proof. unfold ramp_step. cuts. Qed.

Lemma test_pwm_body_cuts (fuel : nat) (D : Q) (env : PWM * Q) :
  cuts_cleanly (test_pwm_body fuel D env).
Proof.
  destruct env as [h s]. unfold test_pwm_body.
  apply cuts_while; [cuts |].
  unfold test_pwm_iteration.
  repeat (cuts; try (apply cuts_for; intros; apply ramp_step_cuts)).
Qed.

Section GuardedLoop.

Variables (body : M unit) (log : message) (fe : event).

Let final : M unit := prim (fun w => (tt, emit fe w)).
Let guarded : M unit := try_except_finally body (print log) final.

Hypothesis body_cuts : cuts_cleanly body.

(** A [try] whose handler prints and whose [finally] is one hardware
    call: how it runs for every arrival of the interrupt. *)
Lemma guarded_loop_cut (w : world) :
  pending w = None ->
  fst (guarded w) = Ok tt ->
  exists B,
    trace (snd (guarded w)) = trace w ++ B ++ [fe]
    /\ forall k,
         ((k < length B)%nat ->
          fst (guarded (with_pending (Some k) w)) = Ok tt
          /\ trace (snd (guarded (with_pending (Some k) w)))
             = trace w ++ firstn k B
               ++ [EvKeyboardInterrupt; EvPrint log] ++ [fe])
         /\ (k = length B ->
             fst (guarded (with_pending (Some k) w)) = Raise KeyboardInterrupt
             /\ trace (snd (guarded (with_pending (Some k) w)))
                = trace w ++ B ++ [EvKeyboardInterrupt])
         /\ ((length B < k)%nat ->
             fst (guarded (with_pending (Some k) w)) = Ok tt
             /\ trace (snd (guarded (with_pending (Some k) w)))
                = trace w ++ B ++ [fe]).
Proof.
  intros Hq Hok.
  destruct (body_cuts w Hq) as (B & TB & PB & RB & CB).
  unfold guarded, try_except_finally in *.
  destruct (body w) as [[[] | e |] w2] eqn:Eb; cbn [fst snd] in *.
  2: { exfalso. now apply (RB e). }
  2: { discriminate Hok. }
  exists B. unfold final in *. rewrite prim_quiet in * by assumption.
  cbn [fst snd emit trace]. split; [rewrite TB; now rewrite app_assoc |].
  intros k. split; [| split]; intros Hk.
  - destruct (proj1 (CB k) Hk) as (F & T & P).
    destruct (body (with_pending (Some k) w)) as [r' w'] eqn:Ek.
    cbn [fst snd] in *. subst r'.
    rewrite print_quiet by assumption.
    rewrite prim_quiet by (cbn; assumption).
    cbn [fst snd emit trace]. split; [reflexivity |].
    rewrite T. now rewrite <- !app_assoc.
  - rewrite (proj2 (CB k)) by lia. cbn [fst snd].
    replace (k - length B)%nat with O by lia.
    unfold prim. cbn. split; [reflexivity |]. rewrite TB.
    now rewrite app_assoc.
  - rewrite (proj2 (CB k)) by lia. cbn [fst snd].
    destruct (k - length B)%nat as [| j] eqn:Ej; [lia |].
    unfold prim. cbn. split; [reflexivity |]. rewrite TB.
    now rewrite app_assoc.
Qed.

End GuardedLoop.

Lemma test_led_setup_delayed (pin : Z) (D t0 : Q) (k : nat) :
  test_led_setup pin D (initial_world t0 (Some (3 + k)%nat))
  = (Ok (pin, t0),
     with_pending (Some k)
       {| now := t0; pending := None; next_id := 0;
          trace := led_setup_events pin D t0 |}).
Proof. reflexivity. Qed.

Lemma test_pwm_setup_delayed (pin : Z) (D t0 : Q) (k : nat) :
  test_pwm_setup pin D (initial_world t0 (Some (3 + k)%nat))
  = (Ok (pwm0 pin, t0),
     with_pending (Some k)
       {| now := t0; pending := None; next_id := 1;
          trace := pwm_setup_events pin D t0 |}).
Proof. reflexivity. Qed.

(** X23: When the quiet run of [test_led] returns, with [body] the events of
    its loop: an interrupt that arrives during the loop (steps 3 to
    [2 + length body]) is absorbed, the trace being the quiet one cut
    at that step, then "Test stopped", then the pin driven low; an
    interrupt that arrives at the [finally] call itself propagates and
    the pin is not written; a later one never arrives. *)
Theorem test_led_interrupted (fuel : nat) (pin : Z) (on off D t0 : Q) :
  outcome (run (test_led fuel pin on off D) t0 None) = Ok tt ->
  exists body,
    events (run (test_led fuel pin on off D) t0 None)
    = led_setup_events pin D t0 ++ body ++ [EvValue pin 0]
    /\ forall k,
         ((k < length body)%nat ->
          outcome (run (test_led fuel pin on off D) t0 (Some (3 + k)%nat))
          = Ok tt
          /\ events (run (test_led fuel pin on off D) t0 (Some (3 + k)%nat))
             = cut_trace (led_setup_events pin D t0) body k MsgTestStopped
                 [EvValue pin 0])
         /\ (k = length body ->
             outcome (run (test_led fuel pin on off D) t0 (Some (3 + k)%nat))
             = Raise KeyboardInterrupt
             /\ events (run (test_led fuel pin on off D) t0 (Some (3 + k)%nat))
                = led_setup_events pin D t0 ++ body ++ [EvKeyboardInterrupt])
         /\ ((length body < k)%nat ->
             outcome (run (test_led fuel pin on off D) t0 (Some (3 + k)%nat))
             = Ok tt
             /\ events (run (test_led fuel pin on off D) t0 (Some (3 + k)%nat))
                = events (run (test_led fuel pin on off D) t0 None)).
Proof.
  unfold outcome, events, run, test_led.
  unfold bind at 1 2. rewrite test_led_setup_quiet. cbv beta iota.
  intros Hok.
  destruct (guarded_loop_cut (test_led_body fuel on off D (pin, t0))
              MsgTestStopped (EvValue pin 0)
              (test_led_body_cuts fuel on off D (pin, t0))
              {| now := t0; pending := None; next_id := 0;
                 trace := led_setup_events pin D t0 |}
              eq_refl Hok) as (B & TB & CB).
  exists B. split; [exact TB |].
  intros k. unfold bind. rewrite test_led_setup_delayed. cbv beta iota.
  destruct (CB k) as (C1 & C2 & C3).
  unfold cut_trace. cbn [trace] in *.
  split; [exact C1 |]. split; [exact C2 |].
  intros Hk. destruct (C3 Hk) as [F T]. split; [exact F |].
  etransitivity; [exact T | symmetry; exact TB].
Qed.

(** X24: When the quiet run of [test_pwm] returns, with [body] the
    events of its loop: an interrupt that arrives during the loop (steps
    3 to [2 + length body]) is absorbed, the trace being the quiet one
    cut at that step, then "Test stopped", then duty 0; an interrupt
    that arrives at the [finally] call itself propagates and leaves the
    duty as the loop left it; a later one never arrives. *)
Theorem test_pwm_interrupted (fuel : nat) (pin : Z) (D t0 : Q) :
  outcome (run (test_pwm fuel pin D) t0 None) = Ok tt ->
  exists body,
    events (run (test_pwm fuel pin D) t0 None)
    = pwm_setup_events pin D t0 ++ body ++ [EvDutyU16 (pwm0 pin) 0]
    /\ forall k,
         ((k < length body)%nat ->
          outcome (run (test_pwm fuel pin D) t0 (Some (3 + k)%nat)) = Ok tt
          /\ events (run (test_pwm fuel pin D) t0 (Some (3 + k)%nat))
             = cut_trace (pwm_setup_events pin D t0) body k MsgTestStopped
                 [EvDutyU16 (pwm0 pin) 0])
         /\ (k = length body ->
             outcome (run (test_pwm fuel pin D) t0 (Some (3 + k)%nat))
             = Raise KeyboardInterrupt
             /\ events (run (test_pwm fuel pin D) t0 (Some (3 + k)%nat))
                = pwm_setup_events pin D t0 ++ body ++ [EvKeyboardInterrupt])
         /\ ((length body < k)%nat ->
             outcome (run (test_pwm fuel pin D) t0 (Some (3 + k)%nat)) = Ok tt
             /\ events (run (test_pwm fuel pin D) t0 (Some (3 + k)%nat))
                = events (run (test_pwm fuel pin D) t0 None)).
Proof.
  unfold outcome, events, run, test_pwm.
  unfold bind at 1 2. rewrite test_pwm_setup_quiet. cbv beta iota.
  intros Hok.
  destruct (guarded_loop_cut (test_pwm_body fuel D (pwm0 pin, t0))
              MsgTestStopped (EvDutyU16 (pwm0 pin) 0)
              (test_pwm_body_cuts fuel D (pwm0 pin, t0))
              {| now := t0; pending := None; next_id := 1;
                 trace := pwm_setup_events pin D t0 |}
              eq_refl Hok) as (B & TB & CB).
  exists B. split; [exact TB |].
  intros k. unfold bind. rewrite test_pwm_setup_delayed. cbv beta iota.
  destruct (CB k) as (C1 & C2 & C3).
  unfold cut_trace. cbn [trace] in *.
  split; [exact C1 |]. split; [exact C2 |].
  intros Hk. destruct (C3 Hk) as [F T]. split; [exact F |].
  etransitivity; [exact T | symmetry; exact TB].
Qed.

Lemma test_led_interrupted_witness :
  outcome (run (test_led 5 2 2 1 10) 0 None) = Ok tt
  /\ exists body,
       events (run (test_led 5 2 2 1 10) 0 None)
       = led_setup_events 2 10 0 ++ body ++ [EvValue 2 0].
Proof.
  split; [reflexivity |].
  destruct (test_led_interrupted 5 2 2 1 10 0 eq_refl) as (body & E & _).
  exists body. exact E.
Defined.

Lemma test_pwm_interrupted_witness :
  outcome (run (test_pwm 2 2 (1 # 10)) 0 None) = Ok tt
  /\ exists body,
       events (run (test_pwm 2 2 (1 # 10)) 0 None)
       = pwm_setup_events 2 (1 # 10) 0 ++ body ++ [EvDutyU16 (pwm0 2) 0].
Proof.
  split; [reflexivity |].
  destruct (test_pwm_interrupted 2 2 (1 # 10) 0 eq_refl) as (body & E & _).
  exists body. exact E.
Defined.

(* ----------------------------------------------------------------- *)
(** ** Edge: a budget that is already spent *)

Lemma py_lt_spent (x D : Q) : (D <= x)%Q -> Py.lt x D = false.
Proof.
  intros H. unfold Py.lt. apply negb_false_iff. now apply Qle_bool_iff.
Qed.

(** X25: With a duration that is zero or negative neither test drives its
    output: the loop body never runs. *)
Theorem spent_budget_drives_nothing (n : nat) (pin : Z) (on off D t0 : Q) :
  (D <= 0)%Q ->
  run (test_led (S n) pin on off D) t0 None
  = (Ok tt,
     {| now := t0; pending := None; next_id := 0;
        trace := led_setup_events pin D t0 ++ [EvTime t0; EvValue pin 0] |})
  /\ run (test_pwm (S n) pin D) t0 None
     = (Ok tt,
        {| now := t0; pending := None; next_id := 1;
           trace := pwm_setup_events pin D t0
                    ++ [EvTime t0; EvDutyU16 (pwm0 pin) 0] |}).
Proof.
  intros H.
  assert (C : Py.lt (t0 - t0) D = false) by (apply py_lt_spent; lra).
  split.
  - unfold run, test_led. unfold bind at 1. rewrite test_led_setup_quiet.
    cbv beta iota. unfold try_except_finally, test_led_body.
    rewrite while_S. unfold bind at 1. unfold bind at 1.
    rewrite time_time_quiet by reflexivity. cbn [now ret]. rewrite C.
    reflexivity.
  - unfold run, test_pwm. unfold bind at 1. rewrite test_pwm_setup_quiet.
    cbv beta iota. unfold try_except_finally, test_pwm_body.
    rewrite while_S. unfold bind at 1. unfold bind at 1.
    rewrite time_time_quiet by reflexivity. cbn [now ret]. rewrite C.
    reflexivity.
Qed.

Lemma spent_budget_drives_nothing_witness :
  (0 <= 0)%Q
  /\ events (run (test_led 1 2 2 1 0) 0 None)
     = led_setup_events 2 0 0 ++ [EvTime 0; EvValue 2 0].
Proof.
  assert (A : (0 <= 0)%Q) by apply Qle_refl.
  split; [exact A |].
  unfold events.
  rewrite (proj1 (spent_budget_drives_nothing 0 2 2 1 0 0 A)). reflexivity.
Defined.

(** X21: The 1.05 s bound of [test_pwm] cannot be lowered to the longest
    single wait (1 s): with a budget of 4.99 s the loop ends 1.01 s
    late. *)
Theorem test_pwm_overshoot_exceeds_one_wait :
  exists (D : Q) (fuel : nat),
    outcome (run (test_pwm fuel 2 D) 0 None) = Ok tt
    /\ (1 < clock (run (test_pwm fuel 2 D) 0 None) - 0 - D)%Q.
Proof.
  exists (499 # 100), 2%nat. split; vm_compute; reflexivity.
Qed.

(* ----------------------------------------------------------------- *)
(** ** The three actuator functions under an interrupt *)




(** X7: Whenever one of the three functions returns normally, each PWM
    object it created has been written 0 and then released, exactly
    once, and the duty registers of its pins read 0 whatever they held
    before. *)
Theorem released_at_zero_on_return (r l speed : Z) (duration t0 : Q)
    (i : option nat) :
  (outcome (run (run_one_cycle r l speed duration) t0 i) = Ok tt ->
   acquired (events (run (run_one_cycle r l speed duration) t0 i))
   = [pwm0 r; pwm1 l]
   /\ Forall (zeroed_then_released_once
                (events (run (run_one_cycle r l speed duration) t0 i)))
             [pwm0 r; pwm1 l]
   /\ forall hw0,
        replay hw0 (events (run (run_one_cycle r l speed duration) t0 i)) r = 0
        /\ replay hw0 (events (run (run_one_cycle r l speed duration) t0 i)) l
           = 0)
  /\ (outcome (run (extend_only duration speed) t0 i) = Ok tt ->
      acquired (events (run (extend_only duration speed) t0 i))
      = [pwm0 RPWM_PIN]
      /\ Forall (zeroed_then_released_once
                   (events (run (extend_only duration speed) t0 i)))
                [pwm0 RPWM_PIN]
      /\ forall hw0,
           replay hw0 (events (run (extend_only duration speed) t0 i)) RPWM_PIN
           = 0)
  /\ (outcome (run (retract_only duration speed) t0 i) = Ok tt ->
      acquired (events (run (retract_only duration speed) t0 i))
      = [pwm0 RPWM_PIN; pwm1 LPWM_PIN]
      /\ Forall (zeroed_then_released_once
                   (events (run (retract_only duration speed) t0 i)))
                [pwm0 RPWM_PIN; pwm1 LPWM_PIN]
      /\ forall hw0,
           replay hw0 (events (run (retract_only duration speed) t0 i)) RPWM_PIN
           = 0
           /\ replay hw0 (events (run (retract_only duration speed) t0 i))
                LPWM_PIN = 0).
Proof.
  split; [| split]; intros H.
  - destruct (run_one_cycle_cleanup speed duration t0 r l i H) as (A & F & R).
    rewrite A in F. auto.
  - destruct (extend_only_cleanup speed duration t0 i H) as (A & F & R).
    rewrite A in F. auto.
  - destruct (retract_only_cleanup speed duration t0 i H) as (A & F & R).
    rewrite A in F. auto.
Qed.

Lemma released_at_zero_on_return_witness :
  outcome (run (run_one_cycle 26 27 100 2) 0 (Some 6%nat)) = Ok tt
  /\ acquired (events (run (run_one_cycle 26 27 100 2) 0 (Some 6%nat)))
     = [pwm0 26; pwm1 27].
Proof.
  split; [reflexivity |].
  apply (proj1 (released_at_zero_on_return 26 27 100 2 0 (Some 6%nat))).
  reflexivity.
Defined.



(** X9: The acquisition is outside the [try]: an interrupt during the
    set-up of [run_one_cycle] (steps 0-2) propagates with nothing
    cleaned up; at step 2 the extend object exists already and is never
    released. *)
Theorem run_one_cycle_setup_can_be_cut (r l speed : Z) (duration t0 : Q)
    (k : nat) :
  (k < 3)%nat ->
  outcome (run (run_one_cycle r l speed duration) t0 (Some k))
  = Raise KeyboardInterrupt
  /\ events (run (run_one_cycle r l speed duration) t0 (Some k))
     = firstn k (cycle_setup_events r l) ++ [EvKeyboardInterrupt]
  /\ (k = 2%nat ->
      acquired (events (run (run_one_cycle r l speed duration) t0 (Some k)))
      = [pwm0 r]
      /\ release_log (pwm0 r) None
           (events (run (run_one_cycle r l speed duration) t0 (Some k)))
         = []).
Proof.
  intros H.
  destruct (run_one_cycle_in_setup speed duration t0 r l k H) as (O & E).
  split; [exact O |]. split; [exact E |].
  intros ->. rewrite E. split; reflexivity.
Qed.

Lemma run_one_cycle_setup_can_be_cut_witness :
  (2 < 3)%nat
  /\ outcome (run (run_one_cycle 26 27 100 2) 0 (Some 2%nat))
     = Raise KeyboardInterrupt.
Proof.
  split; [lia |].
  apply (run_one_cycle_setup_can_be_cut 26 27 100 2 0 2). lia.
Defined.

(* ----------------------------------------------------------------- *)
(** ** The interlock of the two channels *)

(** X10: With two distinct pins, and at most one of the two registers
    non-zero when the function is entered, at most one is non-zero at
    every instant of [run_one_cycle] and of [retract_only], for every
    arrival of the interrupt. *)
Theorem one_channel_at_a_time (r l speed : Z) (duration t0 : Q)
    (i : option nat) (hw0 : hardware) :
  (r <> l -> exclusive r l hw0 ->
   at_every_instant apply_event (exclusive r l) hw0
     (events (run (run_one_cycle r l speed duration) t0 i)))
  /\ (exclusive RPWM_PIN LPWM_PIN hw0 ->
      at_every_instant apply_event (exclusive RPWM_PIN LPWM_PIN) hw0
        (events (run (retract_only duration speed) t0 i))).
Proof.
  split.
  - intros N X. now apply run_one_cycle_exclusive.
  - intros X. now apply retract_only_exclusive.
Qed.

Lemma one_channel_at_a_time_witness :
  26 <> 27 /\ exclusive 26 27 (fun _ => 0)
  /\ at_every_instant apply_event (exclusive 26 27) (fun _ => 0)
       (events (run (run_one_cycle 26 27 100 2) 0 (Some 9%nat))).
Proof.
  assert (N : 26 <> 27) by lia.
  assert (X : exclusive 26 27 (fun _ => 0)) by (left; reflexivity).
  split; [exact N |]. split; [exact X |].
  exact (proj1 (one_channel_at_a_time 26 27 100 2 0 (Some 9%nat) (fun _ => 0))
           N X).
Defined.

(** X11: Whatever the registers hold at entry, from the first [duty_u16]
    call on at most one of the two is non-zero, at every instant and
    for every arrival of the interrupt. *)
Theorem one_channel_after_first_write (r l speed : Z) (duration t0 : Q)
    (i : option nat) (hw0 : hardware) :
  (r <> l ->
   at_every_instant written_step
     (fun s => snd s = true -> exclusive r l (fst s)) (hw0, false)
     (events (run (run_one_cycle r l speed duration) t0 i)))
  /\ at_every_instant written_step
       (fun s => snd s = true -> exclusive RPWM_PIN LPWM_PIN (fst s))
       (hw0, false) (events (run (retract_only duration speed) t0 i)).
Proof.
  split.
  - intros N. now apply run_one_cycle_exclusive_after_write.
  - apply retract_only_exclusive_after_write.
Qed.

Lemma one_channel_after_first_write_witness :
  26 <> 27
  /\ at_every_instant written_step
       (fun s => snd s = true -> exclusive 26 27 (fst s))
       (fun _ => 7, false)
       (events (run (run_one_cycle 26 27 100 2) 0 None)).
Proof.
  assert (N : 26 <> 27) by lia.
  split; [exact N |].
  exact (proj1 (one_channel_after_first_write 26 27 100 2 0 None (fun _ => 7))
           N).
Defined.

(** X12: In [run_one_cycle], with distinct pins and the retract register at
    0 on entry: the retract register is 0 during the whole extend part
    and the extend register is 0 during the whole retract part, for
    every arrival of the interrupt. *)
Theorem run_one_cycle_phase_interlock (r l speed : Z) (duration t0 : Q)
    (i : option nat) (hw0 : hardware) :
  r <> l -> hw0 l = 0 ->
  at_every_instant cycle_step (phase_interlock r l) (hw0, PhaseSetup)
    (events (run (run_one_cycle r l speed duration) t0 i)).
Proof. intros N X. now apply run_one_cycle_phases. Qed.

Lemma run_one_cycle_phase_interlock_witness :
  26 <> 27 /\ (fun _ : Z => 0) 27 = 0
  /\ at_every_instant cycle_step (phase_interlock 26 27)
       (fun _ => 0, PhaseSetup)
       (events (run (run_one_cycle 26 27 100 2) 0 None)).
Proof.
  assert (N : 26 <> 27) by lia.
  split; [exact N |]. split; [reflexivity |].
  exact (run_one_cycle_phase_interlock 26 27 100 2 0 None (fun _ => 0)
           N eq_refl).
Defined.

(** X13: Dead band: in [run_one_cycle] the retract register is never
    non-zero before a wait has run to its end inside the pause part,
    for every arrival of the interrupt. *)
Theorem run_one_cycle_dead_band (r l speed : Z) (duration t0 : Q)
    (i : option nat) (hw0 : hardware) :
  r <> l -> hw0 l = 0 ->
  at_every_instant deadband_step
    (fun s => fst (fst s) l <> 0 -> snd s = true)
    (hw0, PhaseSetup, false)
    (events (run (run_one_cycle r l speed duration) t0 i)).
Proof. intros N X. now apply run_one_cycle_rests. Qed.

Lemma run_one_cycle_dead_band_witness :
  26 <> 27 /\ (fun _ : Z => 0) 27 = 0
  /\ at_every_instant deadband_step
       (fun s => fst (fst s) 27 <> 0 -> snd s = true)
       (fun _ => 0, PhaseSetup, false)
       (events (run (run_one_cycle 26 27 100 2) 0 (Some 11%nat))).
Proof.
  assert (N : 26 <> 27) by lia.
  split; [exact N |]. split; [reflexivity |].
  exact (run_one_cycle_dead_band 26 27 100 2 0 (Some 11%nat) (fun _ => 0)
           N eq_refl).
Defined.





